(** * Saaurabh Collections storefront (app.py): cart, checkout, order ledger

    A shallow embedding of the order path of [app.py]: the Python values the
    script handles, the worksheet it appends to and reads from, the helpers
    [save_orders_to_sheet] and [get_user_orders], and the two tabs of the
    Streamlit script.  One run of the script is a computation in a state and
    exception monad; an exception that nothing catches ends the run and is
    what Streamlit shows to the user. *)

From Stdlib Require Import ZArith List Bool Lia String Ascii.
From Stdlib Require Import DecimalString Floats QArith Qround Sorted.
Import ListNotations.

Local Open Scope Z_scope.

(* ================================================================== *)
(** * Python values                                                     *)
(* ================================================================== *)

Module Py.

(** A Python [str] is a sequence of Unicode code points. *)
Definition char := N.
Definition str := list char.

(** ASCII literals of the source, read as code points. *)
Definition lit (s : string) : str :=
  List.map N_of_ascii (list_ascii_of_string s).

Fixpoint str_eqb (a b : str) : bool :=
  match a, b with
  | [], [] => true
  | x :: a', y :: b' => N.eqb x y && str_eqb a' b'
  | _, _ => false
  end.

(** [str.isspace] on one code point: the whitespace set of CPython. *)
Definition isspace (c : char) : bool :=
  (((9 <=? c) && (c <=? 13)) || ((28 <=? c) && (c <=? 32))
   || (c =? 133) || (c =? 160) || (c =? 5760)
   || ((8192 <=? c) && (c <=? 8202))
   || (c =? 8232) || (c =? 8233) || (c =? 8239) || (c =? 8287)
   || (c =? 12288))%N.

Fixpoint lstrip (s : str) : str :=
  match s with
  | [] => []
  | c :: t => if isspace c then lstrip t else s
  end.

Fixpoint rstrip (s : str) : str :=
  match s with
  | [] => []
  | c :: t =>
      match rstrip t with
      | [] => if isspace c then [] else [c]
      | t' => c :: t'
      end
  end.

(** [s.strip()] *)
Definition strip (s : str) : str := rstrip (lstrip s).

(** The values a worksheet cell or a row dictionary holds here. *)
Inductive value :=
| VInt (z : Z)
| VStr (s : str).

(** [str(v)] *)
Definition pystr (v : value) : str :=
  match v with
  | VInt z => lit (NilZero.string_of_int (Z.to_int z))
  | VStr s => s
  end.

(** [v == w] on values: an int never equals a str. *)
Definition value_eqb (v w : value) : bool :=
  match v, w with
  | VInt a, VInt b => Z.eqb a b
  | VStr a, VStr b => str_eqb a b
  | _, _ => false
  end.

(** Python's [<] on str: lexicographic on code points. *)
Fixpoint str_compare (a b : str) : comparison :=
  match a, b with
  | [], [] => Eq
  | [], _ :: _ => Lt
  | _ :: _, [] => Gt
  | x :: a', y :: b' =>
      match N.compare x y with
      | Eq => str_compare a' b'
      | c => c
      end
  end.

(** The order pandas sorts group keys in: numbers first, in numeric order,
    then strings, in code point order. *)
Definition value_compare (v w : value) : comparison :=
  match v, w with
  | VInt a, VInt b => Z.compare a b
  | VInt _, VStr _ => Lt
  | VStr _, VInt _ => Gt
  | VStr a, VStr b => str_compare a b
  end.

Definition value_lt (v w : value) : Prop := value_compare v w = Lt.

(** ** Dictionaries

    A [dict] keeps its keys in insertion order; assigning to a key that is
    present replaces the value where it stands. *)
Definition dict (V : Type) := list (str * V).

Section Dict.
Context {V : Type}.

Fixpoint dict_get (k : str) (d : dict V) : option V :=
  match d with
  | [] => None
  | (k', v) :: d' => if str_eqb k k' then Some v else dict_get k d'
  end.

Definition dict_mem (k : str) (d : dict V) : bool :=
  match dict_get k d with Some _ => true | None => false end.

Fixpoint dict_set (k : str) (v : V) (d : dict V) : dict V :=
  match d with
  | [] => [(k, v)]
  | (k', v') :: d' =>
      if str_eqb k k' then (k', v) :: d' else (k', v') :: dict_set k v d'
  end.

Definition dict_keys (d : dict V) : list str := List.map fst d.
Definition dict_values (d : dict V) : list V := List.map snd d.

(** [dict(pairs)] *)
Definition dict_of_list (kvs : list (str * V)) : dict V :=
  fold_left (fun d kv => dict_set (fst kv) (snd kv) d) kvs [].
End Dict.

(** ** Floats

    Python's float is IEEE 754 binary64, as are Rocq's primitive floats. *)

(** [float(z)], exact for the integers below 2^53 in magnitude. *)
Definition float_of_int (z : Z) : float :=
  if z <? 0 then PrimFloat.opp (PrimFloat.of_uint63 (Uint63.of_Z (- z)))
  else PrimFloat.of_uint63 (Uint63.of_Z z).

(** [int(f)]: truncation toward zero; [None] where Python raises (nan, inf). *)
Definition int_of_float (f : float) : option Z :=
  match Prim2SF f with
  | S754_zero _ => Some 0
  | S754_finite s m e =>
      let mag := if 0 <=? e then Z.shiftl (Z.pos m) e
                 else Z.shiftr (Z.pos m) (- e) in
      Some (if s then - mag else mag)
  | S754_infinity _ => None
  | S754_nan => None
  end.

End Py.

(* ================================================================== *)
(** * Effects: state and exceptions                                     *)
(* ================================================================== *)

Module Eff.
Import Py.

(** The exceptions a run can end with.  [APIError] stands for any failure of
    a Google Sheets call (network, authorisation, quota), [SecretNotFound]
    for what Streamlit raises when [st.secrets] is read and no secrets file
    exists. *)
Inductive exn :=
| APIError
| IndexError
| KeyError (k : str)
| ValueError
| SecretNotFound.   (* st.secrets read where there is no secrets file *)

Inductive result (A : Type) :=
| Ok (a : A)
| Raise (e : exn).
Arguments Ok {A} a.
Arguments Raise {A} e.

(** A computation over a state [S]: it returns or raises, and leaves the
    state as it was at that point. *)
Definition M (S A : Type) := S -> result A * S.

Definition ret {S A} (a : A) : M S A := fun s => (Ok a, s).
Definition raise {S A} (e : exn) : M S A := fun s => (Raise e, s).
Definition bind {S A B} (m : M S A) (k : A -> M S B) : M S B :=
  fun s => match m s with
           | (Ok a, s') => k a s'
           | (Raise e, s') => (Raise e, s')
           end.
Definition get {S} : M S S := fun s => (Ok s, s).
Definition modify {S} (f : S -> S) : M S unit := fun s => (Ok tt, f s).

(** A computation on a part [T] of the state, run inside the whole. *)
Definition zoom {S T A} (proj : S -> T) (upd : T -> S -> S) (m : M T A)
  : M S A :=
  fun s => let (r, t') := m (proj s) in (r, upd t' s).

Notation "x <- m ;; k" := (bind m (fun x => k))
  (at level 61, m at next level, right associativity).
Notation "m ;;; k" := (bind m (fun _ => k))
  (at level 61, right associativity).

(** [for x in l: body(x)] *)
Fixpoint for_each {S A} (l : list A) (body : A -> M S unit) : M S unit :=
  match l with
  | [] => ret tt
  | x :: l' => body x ;;; for_each l' body
  end.

(** [[f(x) for x in l]] *)
Fixpoint map_M {S A B} (f : A -> M S B) (l : list A) : M S (list B) :=
  match l with
  | [] => ret []
  | x :: l' => y <- f x ;; ys <- map_M f l' ;; ret (y :: ys)
  end.

End Eff.

(* ================================================================== *)
(** * The worksheet                                                     *)
(* ================================================================== *)

(** The Google Sheets client is not part of [app.py]; it is modelled here
    as the current client (gspread 6) behaves behind the calls the script
    makes.  The worksheet may be missing; when it is there it is the grid
    of its rows, each cell holding the value it was written with.  A read
    returns the text of the cells, which [get_all_records] re-types: text
    that reads as a number comes back as that number.  That re-typing is
    the [numericise] of the world, a function to the values modelled here,
    integers and text; a number with a fraction or an exponent is not among
    them.  Every call can fail: [fuse = Some n] lets [n] calls through and
    fails the next one, [fuse = None] never fails. *)
Module Sheets.
Import Py Eff.

Record World :=
  { sheet_rows : option (list (list value));
    fuse : option nat;
    numericise : str -> value }.

(** The rows of the worksheet; none when it is missing. *)
Definition cells (w : World) : list (list value) :=
  match sheet_rows w with
  | Some g => g
  | None => []
  end.

Definition api_call : M World unit :=
  fun w => match fuse w with
           | None => (Ok tt, w)
           | Some (S n) =>
               (Ok tt, {| sheet_rows := sheet_rows w; fuse := Some n;
                          numericise := numericise w |})
           | Some O =>
               (Raise APIError, {| sheet_rows := sheet_rows w; fuse := None;
                                   numericise := numericise w |})
           end.

(** [gspread.authorize(creds)] *)
Definition _get_gspread_client : M World unit := api_call.

(** Open worksheet by name; create if missing. *)
Definition _get_worksheet (client : unit) : M World unit :=
  api_call ;;;                       (* sh.worksheet(sheet_name) *)
  w <- get ;;
  match sheet_rows w with
  | Some _ => ret tt
  | None =>
      (* except gspread.WorksheetNotFound: sh.add_worksheet(...) *)
      api_call ;;;
      modify (fun w => {| sheet_rows := Some []; fuse := fuse w;
                          numericise := numericise w |})
  end.

(** [sheet.get_all_values()]: the rows; for a worksheet without rows the
    client returns one row without cells, [[[]]], not the empty list. *)
Definition get_all_values (sheet : unit) : M World (list (list value)) :=
  api_call ;;;
  w <- get ;;
  ret (match cells w with
       | [] => [[]]
       | _ :: _ => cells w
       end).

(** [sheet.append_row(values)] *)
Definition append_row (sheet : unit) (r : list value) : M World unit :=
  api_call ;;;
  modify (fun w => {| sheet_rows := Some (cells w ++ [r]); fuse := fuse w;
                      numericise := numericise w |}).

(** The width of a grid: the length of its longest row. *)
Definition width (g : list (list value)) : nat :=
  fold_right (fun r n => Nat.max (List.length r) n) O g.

(** A row of texts filled up to [n] entries with empty text. *)
Definition pad (n : nat) (r : list str) : list str :=
  r ++ repeat [] (n - List.length r).

(** The records of a grid as the client returns them.  All rows are read
    at the width of the grid, short ones filled up with empty cells; the
    first row gives the keys; every later row is one
    [dict(zip(keys, row))] of the re-typed texts of its cells. *)
Definition records_of (retype : str -> value) (g : list (list value))
  : list (dict value) :=
  match g with
  | [] => []
  | h :: rs =>
      let keys := pad (width g) (List.map pystr h) in
      List.map (fun r =>
                  dict_of_list
                    (combine keys
                       (List.map retype
                          (pad (width g) (List.map pystr r))))) rs
  end.

(** [sheet.get_all_records()] *)
Definition get_all_records (sheet : unit) : M World (list (dict value)) :=
  api_call ;;; w <- get ;; ret (records_of (numericise w) (cells w)).

End Sheets.

(* ================================================================== *)
(** * Data frames                                                       *)
(* ================================================================== *)

(** The part of pandas the script uses.  A frame is its column names and
    its rows, each row a dictionary from column name to value. *)
Module Pandas.
Import Py Eff.

Record DataFrame := { columns : list str; rows : list (dict value) }.

Definition has_column (df : DataFrame) (c : str) : bool :=
  existsb (str_eqb c) (columns df).

(** [pd.DataFrame(data)] on records that share their keys. *)
Definition DataFrame_of_records (data : list (dict value)) : DataFrame :=
  {| columns := match data with [] => [] | r :: _ => dict_keys r end;
     rows := data |}.

(** [row[c]] *)
Definition getitem {S} (r : dict value) (c : str) : M S value :=
  match dict_get c r with
  | Some v => ret v
  | None => raise (KeyError c)
  end.

(** [df[c]] *)
Definition column {S} (df : DataFrame) (c : str) : M S (list value) :=
  if has_column df c then map_M (fun r => getitem r c) (rows df)
  else raise (KeyError c).

(** [df[c] = vs] for a column that is present. *)
Definition set_column (df : DataFrame) (c : str) (vs : list value)
  : DataFrame :=
  {| columns := columns df;
     rows := List.map (fun rv => dict_set c (snd rv) (fst rv))
                      (combine (rows df) vs) |}.

(** [df[mask]] *)
Definition select_rows (df : DataFrame) (keep : dict value -> bool)
  : DataFrame :=
  {| columns := columns df; rows := filter keep (rows df) |}.

(** [df.empty] *)
Definition empty (df : DataFrame) : bool :=
  match columns df, rows df with
  | [], _ => true
  | _, [] => true
  | _, _ => false
  end.

(** [df.iloc[0]] *)
Definition iloc0 {S} (df : DataFrame) : M S (dict value) :=
  match rows df with
  | [] => raise IndexError
  | r :: _ => ret r
  end.

(** [df[[c1, ..., cn]]] *)
Definition select_columns {S} (df : DataFrame) (cs : list str)
  : M S DataFrame :=
  rs <- map_M (fun r =>
                 map_M (fun c => v <- getitem r c ;; ret (c, v)) cs)
              (rows df) ;;
  ret {| columns := cs; rows := rs |}.

(** Group keys as [groupby] lists them with its default [sort=True]:
    each key once, in ascending order. *)
Fixpoint insert_key (k : value) (l : list value) : list value :=
  match l with
  | [] => [k]
  | h :: t =>
      match value_compare k h with
      | Lt => k :: l
      | Eq => l
      | Gt => h :: insert_key k t
      end
  end.

Definition group_keys (ks : list value) : list value :=
  fold_right insert_key [] ks.

Definition has_key (c : str) (k : value) (r : dict value) : bool :=
  match dict_get c r with
  | Some v => value_eqb v k
  | None => false
  end.

(** [df.groupby(c)], as the sequence its iteration yields. *)
Definition groupby {S} (df : DataFrame) (c : str)
  : M S (list (value * DataFrame)) :=
  ks <- column df c ;;
  ret (List.map (fun k => (k, select_rows df (has_key c k)))
                (group_keys ks)).

(** [df[c].nunique()] *)
Definition nunique {S} (df : DataFrame) (c : str) : M S nat :=
  ks <- column df c ;; ret (List.length (group_keys ks)).

End Pandas.

(* ================================================================== *)
(** * The application                                                   *)
(* ================================================================== *)

Module App.
Import Py Eff Sheets Pandas.

(** ** Google Sheets helpers *)

(** [save_orders_to_sheet(order_rows)] *)
Definition save_orders_to_sheet (order_rows : list (dict value))
  : M World unit :=
  client <- _get_gspread_client ;;
  sheet <- _get_worksheet client ;;
  vals <- get_all_values sheet ;;
  (* Add header if empty *)
  match vals with
  | [] =>
      match order_rows with
      | [] => raise IndexError
      | r0 :: _ => append_row sheet (List.map VStr (dict_keys r0))
      end
  | _ :: _ => ret tt
  end ;;;
  (* Append rows *)
  for_each order_rows (fun row => append_row sheet (dict_values row)).

(** The column list of the empty frame in [get_user_orders]. *)
Definition ORDER_COLUMNS : list str :=
  [lit "Order ID"; lit "Product"; lit "Quantity"; lit "Unit Price";
   lit "Subtotal"; lit "Name"; lit "Phone"; lit "Address"; lit "Pincode";
   lit "Reference By"; lit "Timestamp"].

(** [get_user_orders(phone_number)] *)
Definition get_user_orders (phone_number : value) : M World DataFrame :=
  client <- _get_gspread_client ;;
  sheet <- _get_worksheet client ;;
  data <- get_all_records sheet ;;
  match data with
  | [] => ret {| columns := ORDER_COLUMNS; rows := [] |}
  | _ :: _ =>
      let df := DataFrame_of_records data in
      phones <- column df (lit "Phone") ;;
      let df := set_column df (lit "Phone")
                  (List.map (fun v => VStr (strip (pystr v))) phones) in
      ret (select_rows df
             (has_key (lit "Phone") (VStr (strip (pystr phone_number)))))
  end.

(** ** Product catalog *)

Record product :=
  { title : str; price : Z; discount : Z; image : str }.

Definition catalog_literal : list (str * product) := [
  (lit "IMG_20250707_221915",
   {| title := lit "Elegant Thread Rakhi"; price := 120; discount := 40;
      image := lit "https://res.cloudinary.com/dx35lfv49/image/upload/v1753726754/IMG_20250707_221915.jpg" |});
  (lit "IMG_20250707_222238",
   {| title := lit "Traditional Beads Rakhi"; price := 120; discount := 40;
      image := lit "https://res.cloudinary.com/dx35lfv49/image/upload/v1753726756/IMG_20250707_222238.jpg" |});
  (lit "IMG_20250707_222103",
   {| title := lit "Simple Grace Rakhi"; price := 80; discount := 20;
      image := lit "https://res.cloudinary.com/dx35lfv49/image/upload/v1753726757/IMG_20250707_222103.jpg" |});
  (lit "IMG_20250707_222735",
   {| title := lit "Royal Red Rakhi"; price := 80; discount := 20;
      image := lit "https://res.cloudinary.com/dx35lfv49/image/upload/v1753726761/IMG_20250707_222735.jpg" |});
  (lit "IMG_20250707_222554",
   {| title := lit "Pearl Designer Rakhi"; price := 120; discount := 40;
      image := lit "https://res.cloudinary.com/dx35lfv49/image/upload/v1753726762/IMG_20250707_222554.jpg" |});
  (lit "IMG_20250729_114338_1",
   {| title := lit "Golden Stone Rakhi"; price := 150; discount := 45;
      image := lit "https://res.cloudinary.com/dx35lfv49/image/upload/v1753777815/WhatsApp%20Image%202025-07-29%20at%2011.43.38_6a4f12e0.jpg" |});
  (lit "IMG_20250729_114339_1",
   {| title := lit "Rustic Charm Rakhi"; price := 130; discount := 40;
      image := lit "https://res.cloudinary.com/dx35lfv49/image/upload/v1753777816/WhatsApp%20Image%202025-07-29%20at%2011.43.39_2f92630f.jpg" |});
  (lit "IMG_20250729_114339_2",
   {| title := lit "Twin Pearl Rakhi"; price := 110; discount := 30;
      image := lit "https://res.cloudinary.com/dx35lfv49/image/upload/v1753777817/WhatsApp%20Image%202025-07-29%20at%2011.43.39_032298f3.jpg" |});
  (lit "IMG_20250729_114338_2",
   {| title := lit "Red Feather Rakhi"; price := 140; discount := 40;
      image := lit "https://res.cloudinary.com/dx35lfv49/image/upload/v1753777818/WhatsApp%20Image%202025-07-29%20at%2011.43.38_a3cbeee5.jpg" |});
  (lit "IMG_20250729_114339_3",
   {| title := lit "Antique Emblem Rakhi"; price := 135; discount := 40;
      image := lit "https://res.cloudinary.com/dx35lfv49/image/upload/v1753777819/WhatsApp%20Image%202025-07-29%20at%2011.43.39_a760ab12.jpg" |});
  (lit "IMG_20250729_114340_1",
   {| title := lit "Threaded Diamond Rakhi"; price := 160; discount := 50;
      image := lit "https://res.cloudinary.com/dx35lfv49/image/upload/v1753777820/WhatsApp%20Image%202025-07-29%20at%2011.43.40_5451bc86.jpg" |});
  (lit "IMG_20250729_114340_2",
   {| title := lit "Zari Pearl Rakhi"; price := 115; discount := 30;
      image := lit "https://res.cloudinary.com/dx35lfv49/image/upload/v1753777821/WhatsApp%20Image%202025-07-29%20at%2011.43.40_29d3c9dc.jpg" |});
  (lit "IMG_20250729_114341_1",
   {| title := lit "Elegant Floral Rakhi"; price := 125; discount := 30;
      image := lit "https://res.cloudinary.com/dx35lfv49/image/upload/v1753777822/WhatsApp%20Image%202025-07-29%20at%2011.43.41_c90ca9c0.jpg" |});
  (lit "IMG_20250729_114340_3",
   {| title := lit "Red Gemstone Rakhi"; price := 145; discount := 40;
      image := lit "https://res.cloudinary.com/dx35lfv49/image/upload/v1753777823/WhatsApp%20Image%202025-07-29%20at%2011.43.40_90609f14.jpg" |});
  (lit "IMG_20250729_114341_2",
   {| title := lit "Classic Rudraksha Rakhi"; price := 95; discount := 20;
      image := lit "https://res.cloudinary.com/dx35lfv49/image/upload/v1753777824/WhatsApp%20Image%202025-07-29%20at%2011.43.41_50feea60.jpg" |});
  (lit "IMG_20250729_114342_1",
   {| title := lit "Minimal Designer Rakhi"; price := 105; discount := 25;
      image := lit "https://res.cloudinary.com/dx35lfv49/image/upload/v1753777825/WhatsApp%20Image%202025-07-29%20at%2011.43.42_ab1eb195.jpg" |});
  (lit "IMG_20250729_114342_2",
   {| title := lit "Silver Stone Rakhi"; price := 135; discount := 40;
      image := lit "https://res.cloudinary.com/dx35lfv49/image/upload/v1753777826/WhatsApp%20Image%202025-07-29%20at%2011.43.42_ea071a48.jpg" |})].

(** [sorted(items, key=...)]: stable, ascending in the key. *)
Fixpoint insert_sorted {A} (key : A -> Z) (x : A) (l : list A) : list A :=
  match l with
  | [] => [x]
  | y :: t => if key x <=? key y then x :: l else y :: insert_sorted key x t
  end.

Definition sorted {A} (key : A -> Z) (l : list A) : list A :=
  fold_right (insert_sorted key) [] l.

(** [dict(sorted(rakhi_catalog.items(), key=lambda x: -x[1]["discount"]))] *)
Definition rakhi_catalog : dict product :=
  dict_of_list
    (sorted (fun x => - discount (snd x)) (dict_of_list catalog_literal)).

(** [int(item["price"] * (1 - item["discount"] / 100))] *)
Definition final_price (item : product) : option Z :=
  int_of_float
    (PrimFloat.mul (float_of_int (price item))
       (PrimFloat.sub (float_of_int 1)
          (PrimFloat.div (float_of_int (discount item))
                         (float_of_int 100)))).

(** ** Session, widgets, screen *)

(** One entry of [st.session_state.cart]. *)
Record cart_line := { line_title : str; line_price : Z; quantity : Z }.

(** [st.session_state] once the user is logged in and the cart exists. *)
Record Session := { user_phone : str; cart : dict cart_line }.

(** What the widgets and the clock give to one run of the script.
    [clicked_add] is the product whose Add to Cart button was pressed, if
    any; [qty] is the value of each quantity box (the widget keeps it
    between 1 and 10); [uuid4] and [now] are [str(uuid.uuid4())] and the
    formatted time of this run. *)
Record Inputs :=
  { clicked_add : option str;
    qty : str -> Z;
    name : str;
    address : str;
    pincode : str;
    reference_by : str;
    submit : bool;
    uuid4 : str;
    now : str }.

(** What a run puts on the page, each element with the data it shows. *)
Inductive ui :=
| ProductCard (title : str) (price discount final_price : Z)
| Added (qty : Z) (title : str)
| CartRow (title : str) (quantity subtotal : Z)
| GrandTotal (total : Z)
| CompleteAllFields
| OrderPlaced
| WhatsAppLink (order_id name phone pincode address : str)
               (reference_by : option str)
               (orders : list (dict value)) (total : Z)
| CartEmpty
| NoOrders
| OrdersSummary (orders items : nat)
| OrderHeading (oid : value)
| OrderCustomer (name pincode address : value)
| OrderReference (reference_by : value)
| OrderTable (lines : DataFrame).

Record State := { session : Session; world : World; shown : list ui }.

Definition show (u : ui) : M State unit :=
  modify (fun st => {| session := session st; world := world st;
                       shown := shown st ++ [u] |}).

Definition set_cart (c : dict cart_line) : M State unit :=
  modify (fun st => {| session := {| user_phone := user_phone (session st);
                                     cart := c |};
                       world := world st; shown := shown st |}).

(** A helper of the Sheets section, run on the world of the state. *)
Definition on_world {A} (m : M World A) : M State A :=
  zoom world (fun w st => {| session := session st; world := w;
                             shown := shown st |}) m.

(** [not s] on a str *)
Definition falsy (s : str) : bool :=
  match s with [] => true | _ :: _ => false end.

(** ** Shop tab *)

(** The body of [if st.button("Add to Cart")]. *)
Definition add_to_cart (key : str) (item : product) (final_price qty : Z)
  (c : dict cart_line) : dict cart_line :=
  match dict_get key c with
  | Some details =>
      dict_set key {| line_title := line_title details;
                      line_price := line_price details;
                      quantity := quantity details + qty |} c
  | None =>
      dict_set key {| line_title := title item; line_price := final_price;
                      quantity := qty |} c
  end.

Definition clicked (inp : Inputs) (key : str) : bool :=
  match clicked_add inp with
  | Some k => str_eqb k key
  | None => false
  end.

(** One turn of [for i, (key, item) in enumerate(rakhi_catalog.items())]. *)
Definition product_card (inp : Inputs) (entry : str * product)
  : M State unit :=
  let (key, item) := entry in
  match final_price item with
  | None => raise ValueError
  | Some fp =>
      show (ProductCard (title item) (price item) (discount item) fp) ;;;
      if clicked inp key then
        st <- get ;;
        set_cart (add_to_cart key item fp (qty inp key) (cart (session st))) ;;;
        show (Added (qty inp key) (title item))
      else ret tt
  end.

(** [total_price] after the loop over the cart. *)
Definition cart_total (c : dict cart_line) : Z :=
  fold_left (fun total entry =>
               total + line_price (snd entry) * quantity (snd entry)) c 0.

(** The row dictionary appended to [orders] for one cart entry. *)
Definition order_row (order_id timestamp phone_number : str) (inp : Inputs)
  (details : cart_line) : dict value :=
  [ (lit "Order ID", VStr order_id);
    (lit "Product", VStr (line_title details));
    (lit "Quantity", VInt (quantity details));
    (lit "Unit Price", VInt (line_price details));
    (lit "Subtotal", VInt (line_price details * quantity details));
    (lit "Name", VStr (name inp));
    (lit "Phone", VStr phone_number);
    (lit "Address", VStr (address inp));
    (lit "Pincode", VStr (pincode inp));
    (lit "Reference By", VStr (reference_by inp));
    (lit "Timestamp", VStr (now inp)) ].

(** The list [orders] built from the cart. *)
Definition build_orders (inp : Inputs) (s : Session) : list (dict value) :=
  List.map (fun entry =>
              order_row (firstn 8 (uuid4 inp)) (now inp)
                        (strip (user_phone s)) inp (snd entry))
           (cart s).

(** The body of [if submit]. *)
Definition place_order (inp : Inputs) (total_price : Z) : M State unit :=
  if falsy (name inp) || falsy (address inp) || falsy (pincode inp) then
    show CompleteAllFields
  else
    st <- get ;;
    let order_id := firstn 8 (uuid4 inp) in
    let phone_number := strip (user_phone (session st)) in
    let orders := build_orders inp (session st) in
    on_world (save_orders_to_sheet orders) ;;;
    show OrderPlaced ;;;
    show (WhatsAppLink order_id (name inp) phone_number (pincode inp)
            (address inp)
            (if falsy (reference_by inp) then None
             else Some (reference_by inp))
            orders total_price) ;;;
    set_cart [].

(** The part of the Shop tab under the product grid. *)
Definition cart_section (inp : Inputs) : M State unit :=
  st <- get ;;
  match cart (session st) with
  | [] => show CartEmpty
  | _ :: _ =>
      let c := cart (session st) in
      for_each c (fun entry =>
        show (CartRow (line_title (snd entry)) (quantity (snd entry))
                (line_price (snd entry) * quantity (snd entry)))) ;;;
      let total_price := cart_total c in
      show (GrandTotal total_price) ;;;
      if submit inp then place_order inp total_price else ret tt
  end.

Definition shop_tab (inp : Inputs) : M State unit :=
  for_each rakhi_catalog (product_card inp) ;;;
  cart_section inp.

(** ** My Orders tab *)

(** One turn of [for oid, group in grouped]. *)
Definition show_order (entry : value * DataFrame) : M State unit :=
  let (oid, group) := entry in
  show (OrderHeading oid) ;;;
  first <- iloc0 group ;;
  n <- getitem first (lit "Name") ;;
  p <- getitem first (lit "Pincode") ;;
  a <- getitem first (lit "Address") ;;
  show (OrderCustomer n p a) ;;;
  let r := match dict_get (lit "Reference By") first with
           | Some v => v
           | None => VStr []
           end in
  (if falsy (strip (pystr r)) then ret tt
   else r' <- getitem first (lit "Reference By") ;;
        show (OrderReference r')) ;;;
  lines <- select_columns group
             [lit "Product"; lit "Quantity"; lit "Unit Price";
              lit "Subtotal"; lit "Timestamp"] ;;
  show (OrderTable lines).

Definition my_orders_tab : M State unit :=
  st <- get ;;
  let phone := strip (user_phone (session st)) in
  df <- on_world (get_user_orders (VStr phone)) ;;
  if empty df then show NoOrders
  else
    n <- nunique df (lit "Order ID") ;;
    show (OrdersSummary n (List.length (rows df))) ;;;
    grouped <- groupby df (lit "Order ID") ;;
    for_each grouped show_order.

(** ** One run of the script *)

Inductive tab := Shop | MyOrders.

Definition script (selected_tab : tab) (inp : Inputs) : M State unit :=
  match selected_tab with
  | Shop => shop_tab inp
  | MyOrders => my_orders_tab
  end.

(** A run starts on an empty page. *)
Definition run (selected_tab : tab) (inp : Inputs) (s : Session) (w : World)
  : result unit * State :=
  script selected_tab inp {| session := s; world := w; shown := [] |}.

End App.

(* ================================================================== *)
(** * Vocabulary of the properties                                      *)
(* ================================================================== *)

Module Spec.
Import Py Eff Sheets Pandas App.

(** The ledger in its storage format: no row at all, or a first row that
    reads as the eleven column names over rows of at most eleven cells. *)
Definition ledger_ok (g : list (list value)) : Prop :=
  match g with
  | [] => True
  | h :: rs =>
      List.map pystr h = ORDER_COLUMNS
      /\ forallb (fun r => (List.length r <=? 11)%nat) rs = true
  end.

(** A ledger in its storage format that has its header row. *)
Definition ledger_headed (g : list (list value)) : Prop :=
  g <> [] /\ ledger_ok g.

(** The records of the ledger of a world, as [get_all_records] returns
    them. *)
Definition records (w : World) : list (dict value) :=
  records_of (numericise w) (cells w).

(** The world once the worksheet has been opened: a missing worksheet has
    been created, without rows. *)
Definition opened (w : World) : World :=
  {| sheet_rows := Some (cells w); fuse := fuse w;
     numericise := numericise w |}.

(** The worksheet of [w'] is the one of [w], or [w] had none and [w'] has
    one without rows. *)
Definition same_or_created (w w' : World) : Prop :=
  sheet_rows w' = sheet_rows w
  \/ (sheet_rows w = None /\ sheet_rows w' = Some []).

(** A row of the grid read under the eleven columns: its cells as text,
    filled up to eleven, re-typed. *)
Definition read_row (retype : str -> value) (r : list value) : dict value :=
  combine ORDER_COLUMNS (List.map retype (pad 11 (List.map pystr r))).


(** [str(v).strip()] *)
Definition normal_phone (v : value) : str := strip (pystr v).

(** The Phone cell of a record, as text without surrounding whitespace. *)
Definition phone_of (r : dict value) : option str :=
  option_map normal_phone (dict_get (lit "Phone") r).

(** A record with its Phone cell in normal form. *)
Definition with_normal_phone (r : dict value) : dict value :=
  match phone_of r with
  | Some s => dict_set (lit "Phone") (VStr s) r
  | None => r
  end.

(** The records of the ledger that belong to phone [p], in ledger order,
    each with its Phone cell in normal form. *)
Definition user_rows (p : value) (w : World) : list (dict value) :=
  List.map with_normal_phone
    (filter (fun r => match phone_of r with
                      | Some s => str_eqb s (normal_phone p)
                      | None => false
                      end)
            (records w)).

(** floor(price * (1 - discount/100)) over the rationals. *)
Definition exact_price (item : product) : Z :=
  Qfloor (inject_Z (price item)
          * (1 - inject_Z (discount item) / inject_Z 100))%Q.

(** Empty once surrounding whitespace is removed. *)
Definition blank (s : str) : Prop := strip s = [].

(** The order identifiers a page shows, top to bottom. *)
Definition displayed_orders (page : list ui) : list value :=
  flat_map (fun u => match u with OrderHeading oid => [oid] | _ => [] end)
           page.

(** The tables a page shows, top to bottom. *)
Definition displayed_tables (page : list ui) : list DataFrame :=
  flat_map (fun u => match u with OrderTable t => [t] | _ => [] end) page.

(** The Order ID cells of a sequence of rows. *)
Definition order_ids (rs : list (dict value)) : list value :=
  flat_map (fun r => match dict_get (lit "Order ID") r with
                     | Some v => [v]
                     | None => []
                     end) rs.

(** Each key once, in the order of its first appearance. *)
Fixpoint first_appearance (ks : list value) : list value :=
  match ks with
  | [] => []
  | k :: t => k :: filter (fun k' => negb (value_eqb k' k))
                          (first_appearance t)
  end.

(** Session and world after a sequence of runs of the Shop tab. *)
Definition after_runs (inps : list Inputs) (s : Session) (w : World)
  : Session * World :=
  fold_left (fun sw inp =>
               let st := snd (run Shop inp (fst sw) (snd sw)) in
               (session st, world st))
            inps (s, w).

(** The run presses Add to Cart on [key] with [q] in its quantity box, and
    does not submit the checkout form. *)
Definition adds (key : str) (q : Z) (inp : Inputs) : Prop :=
  clicked_add inp = Some key /\ qty inp key = q /\ submit inp = false.

(** The cart after the product grid of one run. *)
Definition cart_after_grid (inp : Inputs) (catalog : dict product)
  (c : dict cart_line) : dict cart_line :=
  fold_left (fun c entry =>
               match final_price (snd entry) with
               | Some fp =>
                   if clicked inp (fst entry)
                   then add_to_cart (fst entry) (snd entry) fp
                          (qty inp (fst entry)) c
                   else c
               | None => c
               end) catalog c.

(** What the product grid of one run shows. *)
Definition grid_page (inp : Inputs) (catalog : dict product) : list ui :=
  flat_map (fun entry =>
              match final_price (snd entry) with
              | Some fp =>
                  ProductCard (title (snd entry)) (price (snd entry))
                              (discount (snd entry)) fp
                  :: (if clicked inp (fst entry)
                      then [Added (qty inp (fst entry)) (title (snd entry))]
                      else [])
              | None => []
              end) catalog.

(** The calls that open the worksheet, creating it when it is missing, and
    read it. *)
Definition opening : M World (list (list value)) :=
  client <- _get_gspread_client ;;
  sheet <- _get_worksheet client ;;
  get_all_values sheet.

(** What the cart summary shows. *)
Definition cart_page (c : dict cart_line) : list ui :=
  List.map (fun entry =>
              CartRow (line_title (snd entry)) (quantity (snd entry))
                      (line_price (snd entry) * quantity (snd entry))) c
  ++ [GrandTotal (cart_total c)].

(** The message link of a placed order. *)
Definition order_link (inp : Inputs) (s : Session) : ui :=
  WhatsAppLink (firstn 8 (uuid4 inp)) (name inp) (strip (user_phone s))
    (pincode inp) (address inp)
    (if falsy (reference_by inp) then None else Some (reference_by inp))
    (build_orders inp s) (cart_total (cart s)).

(** One run of the Shop tab, end to end: the session, the world and the
    page it leaves, written out case by case. *)
Definition shop_outcome (inp : Inputs) (s : Session) (w : World)
  : result unit * State :=
  let s1 := {| user_phone := user_phone s;
               cart := cart_after_grid inp rakhi_catalog (cart s) |} in
  let grid := grid_page inp rakhi_catalog in
  match cart s1 with
  | [] => (Ok tt, {| session := s1; world := w;
                     shown := grid ++ [CartEmpty] |})
  | _ :: _ =>
      let page := grid ++ cart_page (cart s1) in
      if submit inp then
        if falsy (name inp) || falsy (address inp) || falsy (pincode inp)
        then (Ok tt, {| session := s1; world := w;
                        shown := page ++ [CompleteAllFields] |})
        else
          match save_orders_to_sheet (build_orders inp s1) w with
          | (Ok _, w') =>
              (Ok tt, {| session := {| user_phone := user_phone s;
                                       cart := [] |};
                         world := w';
                         shown := page ++ [OrderPlaced; order_link inp s1] |})
          | (Raise e, w') =>
              (Raise e, {| session := s1; world := w'; shown := page |})
          end
      else (Ok tt, {| session := s1; world := w; shown := page |})
  end.

(** The cell of a row under a column, empty text when it has none. *)
Definition cell (c : str) (r : dict value) : value :=
  match dict_get c r with
  | Some v => v
  | None => VStr []
  end.

(** The columns of the table shown under each order. *)
Definition TABLE_COLUMNS : list str :=
  [lit "Product"; lit "Quantity"; lit "Unit Price"; lit "Subtotal";
   lit "Timestamp"].

(** The table shown for the rows of one order. *)
Definition order_table (rs : list (dict value)) : DataFrame :=
  {| columns := TABLE_COLUMNS;
     rows := List.map (fun r => List.map (fun c => (c, cell c r))
                                  TABLE_COLUMNS) rs |}.

(** What the My Orders tab shows for one order: its heading, the customer
    of its first row, the reference when there is one, its table. *)
Definition order_page (oid : value) (rs : list (dict value)) : list ui :=
  match rs with
  | [] => [OrderHeading oid]
  | first :: _ =>
      [OrderHeading oid;
       OrderCustomer (cell (lit "Name") first) (cell (lit "Pincode") first)
                     (cell (lit "Address") first)]
      ++ (if falsy (strip (pystr (cell (lit "Reference By") first)))
          then []
          else [OrderReference (cell (lit "Reference By") first)])
      ++ [OrderTable (order_table rs)]
  end.

(** The rows of [rs] whose Order ID is [k], in the order of [rs]. *)
Definition rows_of_order (k : value) (rs : list (dict value))
  : list (dict value) :=
  filter (has_key (lit "Order ID") k) rs.

(** What the My Orders tab shows for the rows [rs] of a user. *)
Definition orders_page (rs : list (dict value)) : list ui :=
  match rs with
  | [] => [NoOrders]
  | _ :: _ =>
      OrdersSummary (List.length (group_keys (order_ids rs)))
                    (List.length rs)
      :: flat_map (fun k => order_page k (rows_of_order k rs))
                  (group_keys (order_ids rs))
  end.

(** The state with [page] added at the bottom of what it shows. *)
Definition showing (st : State) (page : list ui) : State :=
  {| session := session st; world := world st;
     shown := shown st ++ page |}.

(** The cell of a row under a column name. *)
Definition field (c : string) (o : dict value) : option value :=
  dict_get (lit c) o.

End Spec.

(* ================================================================== *)
(** * Concrete sessions, inputs and ledgers                             *)
(* ================================================================== *)

Module Examples.
Import Py Eff Sheets Pandas App Spec.

Definition thread_rakhi : cart_line :=
  {| line_title := lit "Elegant Thread Rakhi"; line_price := 72;
     quantity := 2 |}.

Definition grace_rakhi : cart_line :=
  {| line_title := lit "Simple Grace Rakhi"; line_price := 64;
     quantity := 1 |}.

Definition two_item_session : Session :=
  {| user_phone := lit "9876543210";
     cart := [(lit "IMG_20250707_221915", thread_rakhi);
              (lit "IMG_20250707_222103", grace_rakhi)] |}.

Definition empty_session : Session :=
  {| user_phone := lit "9876543210"; cart := [] |}.

Definition checkout_form (uuid : string) : Inputs :=
  {| clicked_add := None; qty := fun _ => 1;
     name := lit "Asha"; address := lit "12 Lake Road";
     pincode := lit "226001"; reference_by := [];
     submit := true; uuid4 := lit uuid;
     now := lit "2025-08-01 10:15:00" |}.

(** A checkout form whose name is a single space. *)
Definition space_name_form : Inputs :=
  {| clicked_add := None; qty := fun _ => 1;
     name := lit " "; address := lit "12 Lake Road";
     pincode := lit "226001"; reference_by := [];
     submit := true; uuid4 := lit "3f2b8c1d-0000-4000-8000-000000000000";
     now := lit "2025-08-01 10:15:00" |}.

(** Pressing Add to Cart on [key] with [q] in every quantity box. *)
Definition press_add (key : string) (q : Z) : Inputs :=
  {| clicked_add := Some (lit key); qty := fun _ => q;
     name := []; address := []; pincode := []; reference_by := [];
     submit := false; uuid4 := []; now := [] |}.

(** The re-typing of the client on the texts used below, none of which
    reads as a number with a fraction or an exponent: [int(text)] when the
    text, stripped of surrounding whitespace, is an optional sign and
    decimal digits, and the text itself otherwise.  Text with an underscore
    is left as it is. *)
Definition is_digit (c : char) : bool := ((48 <=? c) && (c <=? 57))%N.

Fixpoint digits_value (acc : Z) (s : str) : option Z :=
  match s with
  | [] => Some acc
  | c :: t =>
      if is_digit c then digits_value (10 * acc + Z.of_N (c - 48)) t
      else None
  end.

Definition parse_int (s : str) : option Z :=
  match strip s with
  | [] => None
  | c :: t =>
      if (c =? 45)%N then                       (* - *)
        match t with
        | [] => None
        | _ :: _ => option_map Z.opp (digits_value 0 t)
        end
      else if (c =? 43)%N then                  (* + *)
        match t with
        | [] => None
        | _ :: _ => digits_value 0 t
        end
      else digits_value 0 (c :: t)
  end.

Definition numericise_int (s : str) : value :=
  if existsb (N.eqb 95) s then VStr s
  else match parse_int s with
       | Some z => VInt z
       | None => VStr s
       end.

(** A worksheet that is there and holds no row. *)
Definition empty_world : World :=
  {| sheet_rows := Some []; fuse := None; numericise := numericise_int |}.

(** A spreadsheet without the worksheet. *)
Definition missing_world : World :=
  {| sheet_rows := None; fuse := None; numericise := numericise_int |}.

(** A world whose fourth call fails. *)
Definition failing_world : World :=
  {| sheet_rows := Some []; fuse := Some 3%nat;
     numericise := numericise_int |}.

(** A world whose fifth call fails. *)
Definition failing_later_world : World :=
  {| sheet_rows := Some []; fuse := Some 4%nat;
     numericise := numericise_int |}.

(** A worksheet that holds the header row and nothing else. *)
Definition headed_world : World :=
  {| sheet_rows := Some [List.map VStr ORDER_COLUMNS]; fuse := None;
     numericise := numericise_int |}.

(** The ledger after two checkouts of the same phone on the headed
    worksheet: first an order whose identifier starts with b, then one
    whose identifier starts with a. *)
Definition two_orders_world : World :=
  world (snd (run Shop
                (checkout_form "a1a1a1a1-0000-4000-8000-000000000000")
                two_item_session
                (world (snd (run Shop
                   (checkout_form "b2b2b2b2-0000-4000-8000-000000000000")
                   two_item_session headed_world))))).





End Examples.

From Stdlib Require Import Permutation.

(* ================================================================== *)
(** * Vocabulary of the invariants                                      *)
(* ================================================================== *)

Module Inv.
Import Py Eff Sheets Pandas App Spec.

(** A cart as the Shop tab builds it: one line per product key, each line
    with the title and the discounted price of that catalog product, and a
    quantity of at least one. *)
Definition cart_ok (c : dict cart_line) : Prop :=
  NoDup (dict_keys c)
  /\ forall k l,
       In (k, l) c ->
       exists item,
         In (k, item) rakhi_catalog
         /\ line_title l = title item
         /\ final_price item = Some (line_price l)
         /\ 1 <= quantity l.

(** The quantity boxes hold what the widget allows. *)
Definition qty_in_range (inp : Inputs) : Prop :=
  forall k, 1 <= qty inp k <= 10.

(** A computation that leaves its state as it found it. *)
Definition inert {S A} (m : M S A) : Prop := forall s, snd (m s) = s.

(** A computation on the world that writes no row: it leaves the
    worksheet as it found it, or creates the missing one. *)
Definition reads {A} (m : M World A) : Prop :=
  forall w, same_or_created w (snd (m w)).

(** A computation of the script that touches neither the session nor the
    rows of the worksheet. *)
Definition quiet {A} (m : M State A) : Prop :=
  forall st,
    session (snd (m st)) = session st
    /\ same_or_created (world st) (world (snd (m st))).

(** The number of rows the tables of a page hold. *)
Definition table_rows (page : list ui) : nat :=
  list_sum (List.map (fun t => List.length (rows t)) (displayed_tables page)).

End Inv.

(* ================================================================== *)
(** * Credentials                                                       *)
(* ================================================================== *)

(** [_get_service_account_info].  [st.secrets] is read as a mapping; the
    decoders of the standard library are parameters: each returns [None]
    where the Python call raises. *)
Module Credentials.
Import Py.

Inductive failure :=
| RuntimeError      (* no source of credentials *)
| DecodeError.      (* a source was found and could not be decoded *)

Section Resolve.
Variable info : Type.

(** [json.loads(base64.b64decode(b64).decode("utf-8"))] *)
Variable decode_b64_json : str -> option info.

(** [json.loads(raw)], also [json.load(f)] on the text of the file. *)
Variable json_loads : str -> option info.

(** Where credentials can come from: the [google_credentials] table of the
    secrets, [GOOGLE_CREDS_B64] in the secrets and in the environment,
    [GOOGLE_CREDS_JSON] in the environment, the text of
    [google-creds.json] when the file exists. *)
Record Sources :=
  { google_credentials : option info;
    secret_b64 : option str;
    env_b64 : option str;
    env_json : option str;
    creds_file : option str }.

(** Truth value of a string that may be [None]. *)
Definition truthy (o : option str) : bool :=
  match o with
  | Some (_ :: _) => true
  | _ => false
  end.

Definition decoded (o : option info) : info + failure :=
  match o with
  | Some i => inl i
  | None => inr DecodeError
  end.

Definition _get_service_account_info (src : Sources) : info + failure :=
  (* 1) Preferred: TOML table in Streamlit secrets *)
  match google_credentials src with
  | Some t => inl t
  | None =>
      (* 2) Base64 single-line secret *)
      let b64 := if truthy (secret_b64 src) then secret_b64 src
                 else env_b64 src in
      match b64 with
      | Some (c :: s) => decoded (decode_b64_json (c :: s))
      | _ =>
          (* 3) Raw JSON string in env *)
          match env_json src with
          | Some (c :: s) => decoded (json_loads (c :: s))
          | _ =>
              (* 4) Final fallback: local file *)
              match creds_file src with
              | Some text => decoded (json_loads text)
              | None => inr RuntimeError
              end
          end
      end
  end.

End Resolve.

Arguments google_credentials {info}.
Arguments secret_b64 {info}.
Arguments env_b64 {info}.
Arguments env_json {info}.
Arguments creds_file {info}.
Arguments decoded {info}.

End Credentials.

(* ================================================================== *)
(** * The whole script                                                  *)
(* ================================================================== *)

(** One run of [app.py] from its first line: the configuration, the login
    form, the sidebar, and then the tab of [App.script]. *)
Module Main.
Import Py Eff Sheets Pandas App.

(** A value of [st.secrets]: a string or a table. *)
Inductive secret :=
| Text (s : str)
| Table (t : dict str).

(** [st.secrets] and [os.environ].  The secrets are [None] when there is
    no secrets file: every access to [st.secrets] then raises. *)
Record Settings := { secrets : option (dict secret); environ : dict str }.

(** [st.secrets.get(key, os.getenv(key, default))], where the secrets can be
    read; without a secrets file the call raises, [main] ends the run
    there, and the setting has no value. *)
Definition setting (cfg : Settings) (key : str) (default : option str)
  : option secret :=
  match secrets cfg with
  | None => None
  | Some table =>
      match dict_get key table with
      | Some v => Some v
      | None =>
          match dict_get key (environ cfg) with
          | Some s => Some (Text s)
          | None => option_map Text default
          end
      end
  end.

Definition YOUR_PHONE (cfg : Settings) : option secret :=
  setting cfg (lit "YOUR_PHONE") (Some (lit "9140939949")).
Definition SHEET_ID (cfg : Settings) : option secret :=
  setting cfg (lit "SHEET_ID") None.
Definition SHEET_NAME (cfg : Settings) : option secret :=
  setting cfg (lit "SHEET_NAME") (Some (lit "Orders")).

(** [not v] on a setting *)
Definition unset (v : option secret) : bool :=
  match v with
  | None => true
  | Some (Text s) => falsy s
  | Some (Table []) => true
  | Some (Table (_ :: _)) => false
  end.

(** [st.session_state]: each of its two keys is there or not. *)
Record SessionState :=
  { user_phone_key : option str;
    cart_key : option (dict cart_line) }.

(** The widgets outside the tabs, and the inputs of the tab. *)
Record Widgets :=
  { phone_box : str;          (* "Enter your phone number" *)
    login_submit : bool;      (* the Login button of the form *)
    logout : bool;            (* the Logout button of the sidebar *)
    selected_tab : tab;       (* the Navigate radio *)
    tab_inputs : Inputs }.

Inductive element :=
| SheetIdMissing               (* st.error("SHEET_ID is missing. ...") *)
| LoginForm
| EnterValidPhone              (* st.warning("Please enter a valid phone number.") *)
| LoggedInAs (phone : str)     (* the sidebar line *)
| OnTab (u : ui).

(** How a run ends: at its last line, at [st.stop()], at [st.rerun()], or
    with an exception. *)
Inductive ending :=
| Completed
| Stopped
| Rerun
| Failed (e : exn).

Record Outcome :=
  { ending_of : ending;
    state_of : SessionState;
    world_of : World;
    page_of : list element }.

Definition main (cfg : Settings) (wd : Widgets) (ss : SessionState)
  (w : World) : Outcome :=
  match secrets cfg with
  | None =>
      (* YOUR_PHONE = st.secrets.get(...) raises *)
      {| ending_of := Failed SecretNotFound; state_of := ss; world_of := w;
         page_of := [] |}
  | Some _ =>
  if unset (SHEET_ID cfg) then
    {| ending_of := Stopped; state_of := ss; world_of := w;
       page_of := [SheetIdMissing] |}
  else
    match user_phone_key ss with
    | None =>
        (* Simple login with phone *)
        if login_submit wd then
          if falsy (phone_box wd) then
            {| ending_of := Stopped; state_of := ss; world_of := w;
               page_of := [LoginForm; EnterValidPhone] |}
          else
            {| ending_of := Rerun;
               state_of := {| user_phone_key := Some (strip (phone_box wd));
                              cart_key := cart_key ss |};
               world_of := w;
               page_of := [LoginForm] |}
        else
          {| ending_of := Stopped; state_of := ss; world_of := w;
             page_of := [LoginForm] |}
    | Some phone =>
        if logout wd then
          (* st.session_state.clear(); st.rerun() *)
          {| ending_of := Rerun;
             state_of := {| user_phone_key := None; cart_key := None |};
             world_of := w;
             page_of := [LoggedInAs phone] |}
        else
          let c := match cart_key ss with
                   | Some c => c
                   | None => []
                   end in
          let (r, st) := run (selected_tab wd) (tab_inputs wd)
                             {| user_phone := phone; cart := c |} w in
          {| ending_of := match r with
                          | Ok _ => Completed
                          | Raise e => Failed e
                          end;
             state_of := {| user_phone_key := Some (user_phone (session st));
                            cart_key := Some (cart (session st)) |};
             world_of := world st;
             page_of := LoggedInAs phone :: List.map OnTab (shown st) |}
    end
  end.

(** The phone of the session, when there is one, has no surrounding
    whitespace. *)
Definition phone_ok (ss : SessionState) : Prop :=
  forall p, user_phone_key ss = Some p -> strip p = p.

End Main.

(* ================================================================== *)
(** * Opening the worksheet                                             *)
(* ================================================================== *)

(** [_get_worksheet] in detail.  A spreadsheet is its worksheets by title,
    each the grid of its rows; a worksheet just added has no row. *)
Module Workbook.
Import Py.

Definition Spreadsheet := dict (list (list value)).

(** [sh.worksheet(name)]: [None] stands for [WorksheetNotFound]. *)
Definition worksheet (sh : Spreadsheet) (sheet_name : str)
  : option (list (list value)) :=
  dict_get sheet_name sh.

(** [sh.add_worksheet(title=..., rows=100, cols=20)] *)
Definition add_worksheet (sh : Spreadsheet) (title : str) : Spreadsheet :=
  dict_set title [] sh.

(** Open worksheet by name; create if missing.  Returns the rows of the
    worksheet and the spreadsheet as the call leaves it. *)
Definition _get_worksheet (sh : Spreadsheet) (sheet_name : str)
  : list (list value) * Spreadsheet :=
  match worksheet sh sheet_name with
  | Some ws => (ws, sh)
  | None => ([], add_worksheet sh sheet_name)
  end.

End Workbook.

Import Py Eff Sheets Pandas App Spec.

(* ================================================================== *)
(** * Strings and dictionaries                                          *)
(* ================================================================== *)

Lemma str_eqb_eq (a b : str) : str_eqb a b = true <-> a = b.
Proof.
  revert b; induction a as [|x a IH]; intros [|y b]; simpl;
    try (split; (discriminate || reflexivity)).
  rewrite andb_true_iff, N.eqb_eq, IH.
  split; [intros [-> ->]; reflexivity | intros H; inversion H; auto].
Qed.

Lemma str_eqb_refl (a : str) : str_eqb a a = true.
Proof. apply str_eqb_eq; reflexivity. Qed.

Lemma str_eqb_neq (a b : str) : a <> b -> str_eqb a b = false.
Proof.
  intros H; destruct (str_eqb a b) eqn:E; [|reflexivity].
  apply str_eqb_eq in E; contradiction.
Qed.

Lemma rstrip_idem (s : str) : rstrip (rstrip s) = rstrip s.
Proof.
  induction s as [|c t IH]; simpl; [reflexivity|].
  destruct (rstrip t) as [|d t'] eqn:E.
  - destruct (isspace c) eqn:Ec; simpl; [reflexivity|].
    rewrite Ec; reflexivity.
  - simpl in *. rewrite IH. reflexivity.
Qed.

Lemma rstrip_head (c : char) (t : str) :
  isspace c = false -> exists t', rstrip (c :: t) = c :: t'.
Proof.
  intros Hc; simpl. destruct (rstrip t); rewrite ?Hc; eauto.
Qed.

Lemma lstrip_head (s : str) :
  lstrip s = [] \/ exists c t, lstrip s = c :: t /\ isspace c = false.
Proof.
  induction s as [|c t IH]; simpl; [left; reflexivity|].
  destruct (isspace c) eqn:E; [exact IH|right; eauto].
Qed.

(** Stripping twice is stripping once. *)
Lemma strip_idem (s : str) : strip (strip s) = strip s.
Proof.
  unfold strip.
  destruct (lstrip_head s) as [-> | (c & t & -> & Hc)]; [reflexivity|].
  destruct (rstrip_head c t Hc) as [t' E].
  assert (L : lstrip (rstrip (c :: t)) = rstrip (c :: t))
    by (rewrite E; simpl; rewrite Hc; reflexivity).
  rewrite L. apply rstrip_idem.
Qed.

Section DictFacts.
Context {V : Type}.

Lemma dict_set_fresh (k : str) (v : V) (d : dict V) :
  ~ In k (dict_keys d) -> dict_set k v d = d ++ [(k, v)].
Proof.
  induction d as [|[k' v'] d IH]; simpl; intros H; [reflexivity|].
  rewrite str_eqb_neq by (intros ->; apply H; left; reflexivity).
  rewrite IH by (intros Hin; apply H; right; exact Hin).
  reflexivity.
Qed.

Lemma dict_of_list_acc (kvs acc : list (str * V)) :
  NoDup (List.map fst (acc ++ kvs)) ->
  fold_left (fun d kv => dict_set (fst kv) (snd kv) d) kvs acc
  = acc ++ kvs.
Proof.
  revert acc; induction kvs as [|[k v] kvs IH]; intros acc H; simpl.
  - rewrite app_nil_r; reflexivity.
  - rewrite dict_set_fresh.
    + rewrite IH; rewrite <- app_assoc; [reflexivity | exact H].
    + rewrite map_app in H. apply NoDup_remove_2 in H.
      unfold dict_keys. intros Hin. apply H.
      apply in_or_app; left; exact Hin.
Qed.

(** [dict(pairs)] keeps pairs whose keys are distinct as they are. *)
Lemma dict_of_list_nodup (kvs : list (str * V)) :
  NoDup (List.map fst kvs) -> dict_of_list kvs = kvs.
Proof. intros H; unfold dict_of_list; rewrite dict_of_list_acc; auto. Qed.

Lemma dict_get_fresh (k : str) (d : dict V) :
  ~ In k (dict_keys d) -> dict_get k d = None.
Proof.
  induction d as [|[k' v'] d IH]; simpl; intros H; [reflexivity|].
  rewrite str_eqb_neq by (intros ->; apply H; left; reflexivity).
  apply IH; intros Hin; apply H; right; exact Hin.
Qed.
End DictFacts.

(* ================================================================== *)
(** * Calls to the worksheet                                            *)
(* ================================================================== *)

Lemma bind_Ok {S A B} (m : M S A) (k : A -> M S B) s b s' :
  bind m k s = (Ok b, s') ->
  exists a s1, m s = (Ok a, s1) /\ k a s1 = (Ok b, s').
Proof.
  unfold bind; destruct (m s) as [[a|e] s1]; intros H;
    [eauto | discriminate].
Qed.

Lemma bind_Raise {S A B} (m : M S A) (k : A -> M S B) s e s' :
  bind m k s = (Raise e, s') ->
  m s = (Raise e, s') \/
  exists a s1, m s = (Ok a, s1) /\ k a s1 = (Raise e, s').
Proof.
  unfold bind; destruct (m s) as [[a|e1] s1]; intros H;
    [right; eauto | left; inversion H; reflexivity].
Qed.

Lemma bind_run {S A B} (m : M S A) (k : A -> M S B) s a s1 :
  m s = (Ok a, s1) -> bind m k s = k a s1.
Proof. intros H. unfold bind. rewrite H. reflexivity. Qed.

(** A call goes through and leaves the worksheet alone, or fails with
    [APIError] and leaves the worksheet alone. *)
Lemma api_call_cases (w : World) :
  (exists f, api_call w = (Ok tt, {| sheet_rows := sheet_rows w; fuse := f;
                                     numericise := numericise w |})) \/
  api_call w = (Raise APIError, {| sheet_rows := sheet_rows w; fuse := None;
                                   numericise := numericise w |}).
Proof.
  unfold api_call; destruct w as [g [[|n]|] f]; simpl; eauto.
Qed.

Lemma api_call_Ok w u w' :
  api_call w = (Ok u, w') -> sheet_rows w' = sheet_rows w.
Proof.
  destruct (api_call_cases w) as [[f ->] | ->]; intros H; inversion H.
  reflexivity.
Qed.

Lemma api_call_Raise w e w' :
  api_call w = (Raise e, w') -> e = APIError /\ sheet_rows w' = sheet_rows w.
Proof.
  destruct (api_call_cases w) as [[f ->] | ->]; intros H; inversion H.
  split; reflexivity.
Qed.

Lemma api_call_reliable (w : World) :
  fuse w = None -> api_call w = (Ok tt, w).
Proof. destruct w as [g f n]; simpl; intros ->; reflexivity. Qed.

Lemma same_or_created_refl w : same_or_created w w.
Proof. left; reflexivity. Qed.

Lemma same_or_created_trans w1 w2 w3 :
  same_or_created w1 w2 -> same_or_created w2 w3 -> same_or_created w1 w3.
Proof.
  unfold same_or_created.
  intros [H1 | [H1 H1']] [H2 | [H2 H2']]; try congruence.
  - left; congruence.
  - right; split; congruence.
  - right; split; congruence.
Qed.

Lemma same_or_created_cells w w' :
  same_or_created w w' -> cells w' = cells w.
Proof.
  unfold same_or_created, cells. intros [-> | [-> ->]]; reflexivity.
Qed.

Lemma same_sheet_cells w w' : sheet_rows w' = sheet_rows w -> cells w' = cells w.
Proof. unfold cells. intros ->. reflexivity. Qed.

(** Opening the worksheet writes no row: it leaves the worksheet as it is
    or creates the missing one, and when it returns the worksheet is
    there. *)
Lemma get_worksheet_cases client w :
  same_or_created w (snd (_get_worksheet client w))
  /\ (forall u, fst (_get_worksheet client w) = Ok u ->
                sheet_rows (snd (_get_worksheet client w)) = Some (cells w))
  /\ (forall e, fst (_get_worksheet client w) = Raise e -> e = APIError).
Proof.
  unfold _get_worksheet, bind, get, modify, ret, same_or_created, cells.
  destruct (api_call_cases w) as [[f1 ->] | ->]; cbn [sheet_rows fuse].
  - destruct (sheet_rows w) as [g|] eqn:Eg; cbn [fst snd sheet_rows].
    + split; [left; reflexivity|]. split; [reflexivity | discriminate].
    + match goal with
      | |- context [api_call ?x] =>
          destruct (api_call_cases x) as [[f2 ->] | ->]
      end; cbn [fst snd sheet_rows].
      * split; [right; split; reflexivity|].
        split; [reflexivity | discriminate].
      * split; [left; reflexivity|].
        split; [discriminate | intros e H; inversion H; reflexivity].
  - cbn [fst snd sheet_rows]. split; [left; reflexivity|].
    split; [discriminate | intros e H; inversion H; reflexivity].
Qed.

Lemma get_worksheet_reliable client w :
  fuse w = None -> _get_worksheet client w = (Ok tt, opened w).
Proof.
  intros H. unfold _get_worksheet, bind, get, modify, ret, opened, cells.
  rewrite (api_call_reliable w H).
  destruct w as [[g|] f n]; cbn [sheet_rows fuse numericise] in *; subst f;
    reflexivity.
Qed.

Lemma opened_fuse w : fuse (opened w) = fuse w.
Proof. reflexivity. Qed.

Lemma opened_cells w : cells (opened w) = cells w.
Proof. reflexivity. Qed.

Lemma append_row_Ok sheet r w u w' :
  append_row sheet r w = (Ok u, w') -> cells w' = cells w ++ [r].
Proof.
  unfold append_row, bind, modify.
  destruct (api_call_cases w) as [[f ->] | ->]; intros H; inversion H.
  reflexivity.
Qed.

Lemma append_row_Raise sheet r w e w' :
  append_row sheet r w = (Raise e, w') ->
  e = APIError /\ cells w' = cells w.
Proof.
  unfold append_row, bind, modify.
  destruct (api_call_cases w) as [[f ->] | ->]; intros H; inversion H.
  split; reflexivity.
Qed.

Lemma append_row_reliable sheet r w :
  fuse w = None ->
  append_row sheet r w
  = (Ok tt, {| sheet_rows := Some (cells w ++ [r]); fuse := None;
               numericise := numericise w |}).
Proof.
  intros H; unfold append_row, bind, modify.
  rewrite (api_call_reliable w H), H; reflexivity.
Qed.

(** The loop that appends the rows. *)
Lemma append_rows_Ok sheet (rs : list (dict value)) :
  forall w u w',
    for_each rs (fun row => append_row sheet (dict_values row)) w
    = (Ok u, w') ->
    cells w' = cells w ++ List.map dict_values rs.
Proof.
  induction rs as [|r rs IH]; simpl; intros w u w' H.
  - inversion H; rewrite app_nil_r; reflexivity.
  - apply bind_Ok in H. destruct H as (a & w1 & H1 & H2).
    apply append_row_Ok in H1. apply IH in H2.
    rewrite H2, H1, <- app_assoc; reflexivity.
Qed.

Lemma append_rows_Raise sheet (rs : list (dict value)) :
  forall w e w',
    for_each rs (fun row => append_row sheet (dict_values row)) w
    = (Raise e, w') ->
    e = APIError /\
    exists n, cells w' = cells w ++ firstn n (List.map dict_values rs).
Proof.
  induction rs as [|r rs IH]; simpl; intros w e w' H.
  - discriminate.
  - apply bind_Raise in H. destruct H as [H | (a & w1 & H1 & H2)].
    + apply append_row_Raise in H. destruct H as [-> Hc].
      split; [reflexivity|]. exists O. simpl.
      rewrite app_nil_r; exact Hc.
    + apply append_row_Ok in H1. apply IH in H2.
      destruct H2 as [-> [n Hn]]. split; [reflexivity|].
      exists (S n). simpl. rewrite Hn, H1, <- app_assoc. reflexivity.
Qed.

Lemma append_rows_reliable sheet (rs : list (dict value)) :
  forall w,
    fuse w = None -> sheet_rows w <> None ->
    for_each rs (fun row => append_row sheet (dict_values row)) w
    = (Ok tt, {| sheet_rows := Some (cells w ++ List.map dict_values rs);
                 fuse := None; numericise := numericise w |}).
Proof.
  induction rs as [|r rs IH]; simpl; intros w H Hs.
  - unfold ret. rewrite app_nil_r. unfold cells.
    destruct w as [[g|] f n]; simpl in *; subst;
      [reflexivity | contradiction].
  - unfold bind. rewrite append_row_reliable by exact H.
    rewrite IH by (reflexivity || discriminate).
    cbn [cells sheet_rows numericise]. rewrite <- app_assoc. reflexivity.
Qed.

(** ** [save_orders_to_sheet] *)

(** What [get_all_values] returns is never the empty list. *)
Lemma opening_Ok w vals w' :
  opening w = (Ok vals, w') -> vals <> [] /\ cells w' = cells w.
Proof.
  unfold opening, _get_gspread_client. intros H.
  apply bind_Ok in H. destruct H as (c & w1 & H1 & H).
  apply bind_Ok in H. destruct H as (sh & w2 & H2 & H).
  apply api_call_Ok in H1. apply same_sheet_cells in H1.
  pose proof (get_worksheet_cases c w1) as [G _]. rewrite H2 in G.
  cbn [snd] in G. apply same_or_created_cells in G.
  unfold get_all_values in H.
  apply bind_Ok in H. destruct H as (u & w3 & H3 & H).
  apply api_call_Ok in H3. apply same_sheet_cells in H3.
  unfold bind, get, ret in H. inversion H; subst w' vals.
  split; [destruct (cells w3); discriminate | congruence].
Qed.

Lemma opening_Raise w e w' :
  opening w = (Raise e, w') -> e = APIError /\ cells w' = cells w.
Proof.
  unfold opening, _get_gspread_client. intros H.
  apply bind_Raise in H. destruct H as [H | (c & w1 & H1 & H)].
  { apply api_call_Raise in H. destruct H as [-> H].
    split; [reflexivity | apply same_sheet_cells; exact H]. }
  apply api_call_Ok in H1. apply same_sheet_cells in H1.
  pose proof (get_worksheet_cases c w1) as (G & _ & GE).
  apply bind_Raise in H. destruct H as [H | (sh & w2 & H2 & H)].
  { rewrite H in G, GE. cbn [fst snd] in *.
    apply same_or_created_cells in G.
    split; [apply GE; reflexivity | congruence]. }
  rewrite H2 in G. cbn [snd] in G. apply same_or_created_cells in G.
  unfold get_all_values in H.
  apply bind_Raise in H. destruct H as [H | (u & w3 & H3 & H)].
  { apply api_call_Raise in H. destruct H as [-> H].
    apply same_sheet_cells in H. split; [reflexivity | congruence]. }
  unfold bind, get, ret in H. discriminate.
Qed.

Lemma opening_reliable w :
  fuse w = None ->
  opening w = (Ok match cells w with
                  | [] => [[]]
                  | _ :: _ => cells w
                  end, opened w).
Proof.
  intros H.
  unfold opening, _get_gspread_client, get_all_values.
  erewrite bind_run; [|apply api_call_reliable; exact H].
  erewrite bind_run; [|apply get_worksheet_reliable; exact H].
  erewrite bind_run; [|apply api_call_reliable; exact H].
  reflexivity.
Qed.

Lemma save_orders_unfold order_rows w :
  save_orders_to_sheet order_rows w
  = (vals <- opening ;;
     match vals with
     | [] =>
         match order_rows with
         | [] => raise IndexError
         | r0 :: _ => append_row tt (List.map VStr (dict_keys r0))
         end
     | _ :: _ => ret tt
     end ;;;
     for_each order_rows (fun row => append_row tt (dict_values row))) w.
Proof.
  unfold save_orders_to_sheet, opening, bind.
  destruct (_get_gspread_client w) as [[[]|e] w1]; [|reflexivity].
  destruct (_get_worksheet tt w1) as [[[]|e] w2]; [|reflexivity].
  destruct (get_all_values tt w2) as [[v|e] w3]; reflexivity.
Qed.

(** A save that returns has appended one row per element, and nothing
    else: the reading of the worksheet is never empty, so the header
    branch is not taken. *)
Lemma save_orders_Ok order_rows w u w' :
  save_orders_to_sheet order_rows w = (Ok u, w') ->
  cells w' = cells w ++ List.map dict_values order_rows.
Proof.
  rewrite save_orders_unfold. intros H.
  apply bind_Ok in H. destruct H as (vals & w1 & H1 & H).
  apply opening_Ok in H1. destruct H1 as [Hv Hc1].
  destruct vals as [|v vals]; [contradiction|].
  apply bind_Ok in H. destruct H as (a & w2 & H2 & H).
  inversion H2; subst w2.
  apply append_rows_Ok in H. rewrite H, Hc1. reflexivity.
Qed.

(** A save that raises has met a failure of the API, and has appended a
    prefix of the rows. *)
Lemma save_orders_Raise order_rows w e w' :
  save_orders_to_sheet order_rows w = (Raise e, w') ->
  e = APIError
  /\ exists n,
       cells w' = cells w ++ firstn n (List.map dict_values order_rows).
Proof.
  rewrite save_orders_unfold. intros H.
  apply bind_Raise in H. destruct H as [H | (vals & w1 & H1 & H)].
  { apply opening_Raise in H. destruct H as [-> H].
    split; [reflexivity|]. exists O. cbn [firstn].
    rewrite app_nil_r. exact H. }
  apply opening_Ok in H1. destruct H1 as [Hv Hc1].
  destruct vals as [|v vals]; [contradiction|].
  apply bind_Raise in H. destruct H as [H | (a & w2 & H2 & H)];
    [discriminate|].
  inversion H2; subst w2.
  apply append_rows_Raise in H. destruct H as [-> [n Hn]].
  split; [reflexivity|]. exists n. rewrite Hn, Hc1. reflexivity.
Qed.

Lemma save_orders_reliable order_rows w :
  fuse w = None ->
  save_orders_to_sheet order_rows w
  = (Ok tt, {| sheet_rows := Some (cells w ++ List.map dict_values order_rows);
               fuse := None; numericise := numericise w |}).
Proof.
  intros Hf. rewrite save_orders_unfold.
  erewrite bind_run; [|apply opening_reliable; exact Hf].
  assert (E : forall vals : list (list value),
             vals <> [] ->
             (match vals with
              | [] =>
                  match order_rows with
                  | [] => raise IndexError
                  | r0 :: _ => append_row tt (List.map VStr (dict_keys r0))
                  end
              | _ :: _ => ret tt
              end ;;;
              for_each order_rows
                (fun row => append_row tt (dict_values row))) (opened w)
             = for_each order_rows
                 (fun row => append_row tt (dict_values row)) (opened w)).
  { intros [|v vals] Hne; [contradiction | reflexivity]. }
  rewrite E by (destruct (cells w); discriminate).
  rewrite append_rows_reliable by (exact Hf || discriminate).
  reflexivity.
Qed.

(** The rows the checkout builds carry the eleven columns, in order. *)
Lemma order_row_keys oid ts ph inp d :
  dict_keys (order_row oid ts ph inp d) = ORDER_COLUMNS.
Proof. reflexivity. Qed.

Lemma build_orders_keys inp s :
  Forall (fun o => dict_keys o = ORDER_COLUMNS) (build_orders inp s).
Proof.
  unfold build_orders. apply Forall_forall. intros o Ho.
  apply in_map_iff in Ho. destruct Ho as (e & <- & _).
  apply order_row_keys.
Qed.



(* ================================================================== *)
(** * One run of the Shop tab                                           *)
(* ================================================================== *)

(** Every product of the catalog has a price after discount: [int(...)]
    does not raise on it. *)
Lemma catalog_priced :
  Forall (fun entry => final_price (snd entry) <> None) rakhi_catalog.
Proof.
  apply Forall_forall. intros e He.
  assert (H : forallb (fun entry =>
                         match final_price (snd entry) with
                         | Some _ => true
                         | None => false
                         end) rakhi_catalog = true)
    by (vm_compute; reflexivity).
  rewrite forallb_forall in H. specialize (H e He).
  destruct (final_price (snd e)); [discriminate | discriminate].
Qed.

Opaque final_price rakhi_catalog.

Lemma product_cards_run inp (catalog : dict product) :
  Forall (fun entry => final_price (snd entry) <> None) catalog ->
  forall st,
    for_each catalog (product_card inp) st
    = (Ok tt,
       {| session :=
            {| user_phone := user_phone (session st);
               cart := cart_after_grid inp catalog (cart (session st)) |};
          world := world st;
          shown := shown st ++ grid_page inp catalog |}).
Proof.
  induction 1 as [|[key item] catalog Hp _ IH]; intros st.
  - simpl. unfold ret. rewrite app_nil_r.
    destruct st as [[ph c] w page]; reflexivity.
  - simpl in Hp. cbn [for_each]. unfold bind at 1.
    unfold product_card, cart_after_grid, grid_page.
    cbn [fold_left flat_map fst snd].
    destruct (final_price item) as [fp|]; [|contradiction].
    fold (cart_after_grid inp catalog). fold (grid_page inp catalog).
    destruct (clicked inp key).
    + unfold bind, show, set_cart, modify, get. rewrite IH. cbn.
      rewrite <- !app_assoc. reflexivity.
    + unfold bind, show, modify, ret. rewrite IH. cbn.
      rewrite <- !app_assoc. reflexivity.
Qed.

Lemma cart_rows_run (c : dict cart_line) :
  forall st,
    for_each c (fun entry =>
      show (CartRow (line_title (snd entry)) (quantity (snd entry))
              (line_price (snd entry) * quantity (snd entry)))) st
    = (Ok tt,
       {| session := session st; world := world st;
          shown := shown st
                   ++ List.map (fun entry =>
                        CartRow (line_title (snd entry))
                          (quantity (snd entry))
                          (line_price (snd entry) * quantity (snd entry)))
                        c |}).
Proof.
  induction c as [|e c IH]; intros st.
  - simpl. unfold ret. rewrite app_nil_r. destruct st; reflexivity.
  - cbn [for_each]. unfold bind, show, modify. rewrite IH. cbn.
    rewrite <- app_assoc. reflexivity.
Qed.

(** The script's Shop tab computes [shop_outcome]. *)
Lemma shop_tab_run inp s w : run Shop inp s w = shop_outcome inp s w.
Proof.
  unfold run, script, shop_tab, shop_outcome. unfold bind at 1.
  rewrite (product_cards_run inp rakhi_catalog catalog_priced).
  generalize rakhi_catalog as catalog. intros catalog.
  cbn [session world shown user_phone cart app].
  generalize (grid_page inp catalog) as grid.
  generalize (cart_after_grid inp catalog (cart s)) as c1.
  intros c1 grid.
  unfold cart_section, bind at 1, get at 1.
  cbn [session world shown user_phone cart app].
  destruct c1 as [|e c]; [reflexivity|].
  unfold bind at 1. rewrite cart_rows_run.
  cbn [session world shown user_phone cart app].
  unfold bind at 1, show at 1, modify.
  cbn [session world shown user_phone cart app].
  unfold cart_page. rewrite <- !app_assoc.
  destruct (submit inp); [|reflexivity].
  unfold place_order.
  destruct (falsy (name inp) || falsy (address inp) || falsy (pincode inp)).
  - unfold show, modify. cbn [session world shown user_phone cart app].
    rewrite <- !app_assoc. reflexivity.
  - unfold bind at 1, get at 1. unfold bind at 1.
    unfold on_world, zoom. cbn [session world shown user_phone cart app].
    destruct (save_orders_to_sheet _ w) as [[u|e'] w'].
    + unfold bind, show, set_cart, modify.
      cbn [session world shown user_phone cart app].
      unfold order_link. cbn [session world shown user_phone cart app].
      rewrite <- !app_assoc. reflexivity.
    + reflexivity.
Qed.

Lemma falsy_false (s : str) : s <> [] -> falsy s = false.
Proof. destruct s; [contradiction | reflexivity]. Qed.

Lemma falsy_true (s : str) : falsy s = true <-> s = [].
Proof. destruct s; simpl; split; (reflexivity || discriminate). Qed.

Lemma cart_after_grid_idle inp (catalog : dict product) :
  clicked_add inp = None ->
  forall c, cart_after_grid inp catalog c = c.
Proof.
  intros Hc. unfold cart_after_grid, clicked. rewrite Hc.
  induction catalog as [|e catalog IH]; intros c; simpl; [reflexivity|].
  destruct (final_price (snd e)); apply IH.
Qed.

(** The product grid and the cart summary show neither the validation
    error nor the confirmation. *)
Lemma page_plain inp (catalog : dict product) (c : dict cart_line) u :
  In u (grid_page inp catalog ++ cart_page c) ->
  u <> CompleteAllFields /\ u <> OrderPlaced.
Proof.
  intros H. apply in_app_or in H. destruct H as [H | H].
  - unfold grid_page in H. apply in_flat_map in H.
    destruct H as (e & _ & H).
    destruct (final_price (snd e)); [|destruct H].
    destruct H as [<- | H]; [split; discriminate|].
    destruct (clicked inp (fst e)); [|destruct H].
    destruct H as [<- | []]. split; discriminate.
  - unfold cart_page in H. apply in_app_or in H. destruct H as [H | H].
    + apply in_map_iff in H. destruct H as (e & <- & _). split; discriminate.
    + destruct H as [<- | []]. split; discriminate.
Qed.

(** A run that submits the checkout form on a cart that is not empty. *)
Lemma checkout_run inp s w :
  clicked_add inp = None -> cart s <> [] -> submit inp = true ->
  run Shop inp s w =
  let page := grid_page inp rakhi_catalog ++ cart_page (cart s) in
  if falsy (name inp) || falsy (address inp) || falsy (pincode inp)
  then (Ok tt, {| session := s; world := w;
                  shown := page ++ [CompleteAllFields] |})
  else
    match save_orders_to_sheet (build_orders inp s) w with
    | (Ok _, w') =>
        (Ok tt, {| session := {| user_phone := user_phone s; cart := [] |};
                   world := w';
                   shown := page ++ [OrderPlaced; order_link inp s] |})
    | (Raise e, w') =>
        (Raise e, {| session := s; world := w'; shown := page |})
    end.
Proof.
  intros Hc Hne Hs. rewrite shop_tab_run. unfold shop_outcome.
  cbn [cart user_phone]. rewrite (cart_after_grid_idle inp _ Hc).
  rewrite Hs. destruct s as [ph c]. cbn [cart user_phone] in *.
  destruct c as [|e c]; [contradiction|]. reflexivity.
Qed.

(* ================================================================== *)
(** * Checkout                                                          *)
(* ================================================================== *)

(** C1.  A checkout that succeeds on a cart of two distinct products appends
    exactly two rows to the ledger, after the rows it held.  Both rows
    carry the same Order ID and the same Timestamp, each Subtotal is Unit
    Price times Quantity of its cart line, and the two Subtotals add up to
    the total of the cart, which is the Grand Total the page shows. *)
Theorem checkout_two_products inp phone k1 d1 k2 d2 w st' :
  k1 <> k2 ->
  clicked_add inp = None -> submit inp = true ->
  name inp <> [] -> address inp <> [] -> pincode inp <> [] ->
  run Shop inp {| user_phone := phone; cart := [(k1, d1); (k2, d2)] |} w
  = (Ok tt, st') ->
  exists o1 o2,
    cells (world st') = cells w ++ [dict_values o1; dict_values o2]
    /\ dict_keys o1 = ORDER_COLUMNS /\ dict_keys o2 = ORDER_COLUMNS
    /\ field "Order ID" o1 = Some (VStr (firstn 8 (uuid4 inp)))
    /\ field "Order ID" o2 = Some (VStr (firstn 8 (uuid4 inp)))
    /\ field "Timestamp" o1 = Some (VStr (now inp))
    /\ field "Timestamp" o2 = Some (VStr (now inp))
    /\ field "Unit Price" o1 = Some (VInt (line_price d1))
    /\ field "Quantity" o1 = Some (VInt (quantity d1))
    /\ field "Subtotal" o1 = Some (VInt (line_price d1 * quantity d1))
    /\ field "Unit Price" o2 = Some (VInt (line_price d2))
    /\ field "Quantity" o2 = Some (VInt (quantity d2))
    /\ field "Subtotal" o2 = Some (VInt (line_price d2 * quantity d2))
    /\ line_price d1 * quantity d1 + line_price d2 * quantity d2
       = cart_total [(k1, d1); (k2, d2)]
    /\ In (GrandTotal (cart_total [(k1, d1); (k2, d2)])) (shown st').
Proof.
  intros _ Hc Hs Hn Ha Hp Hrun.
  rewrite checkout_run in Hrun by (assumption || discriminate).
  cbv zeta in Hrun.
  rewrite (falsy_false _ Hn), (falsy_false _ Ha), (falsy_false _ Hp) in Hrun.
  cbn [orb] in Hrun.
  destruct (save_orders_to_sheet _ w) as [[u|e] w'] eqn:Hsave;
    [|discriminate].
  apply save_orders_Ok in Hsave. rename Hsave into Hcells.
  inversion Hrun; subst st'; clear Hrun. cbn [world shown].
  set (s := {| user_phone := phone; cart := [(k1, d1); (k2, d2)] |}) in *.
  exists (order_row (firstn 8 (uuid4 inp)) (now inp) (strip phone) inp d1),
         (order_row (firstn 8 (uuid4 inp)) (now inp) (strip phone) inp d2).
  split.
  { rewrite Hcells. unfold build_orders, s. cbn [cart List.map snd].
    reflexivity. }
  do 12 (split; [reflexivity|]).
  split; [unfold cart_total; cbn [fold_left snd]; lia|].
  apply in_or_app. left. apply in_or_app. right.
  unfold cart_page. apply in_or_app. right. left. reflexivity.
Qed.

Lemma checkout_two_products_witness :
  exists o1 o2,
    cells (world (snd (run Shop
      (Examples.checkout_form "3f2b8c1d-0000-4000-8000-000000000000")
      Examples.two_item_session Examples.empty_world)))
    = [] ++ [dict_values o1; dict_values o2]
    /\ field "Subtotal" o1 = Some (VInt 144)
    /\ field "Subtotal" o2 = Some (VInt 64).
Proof.
  destruct (checkout_two_products
    (Examples.checkout_form "3f2b8c1d-0000-4000-8000-000000000000")
    (lit "9876543210")
    (lit "IMG_20250707_221915") Examples.thread_rakhi
    (lit "IMG_20250707_222103") Examples.grace_rakhi
    Examples.empty_world
    (snd (run Shop
      (Examples.checkout_form "3f2b8c1d-0000-4000-8000-000000000000")
      Examples.two_item_session Examples.empty_world)))
    as (o1 & o2 & H1 & _ & _ & _ & _ & _ & _ & _ & _ & H2 & _ & _ & H3 & _).
  - vm_compute; discriminate.
  - reflexivity.
  - reflexivity.
  - vm_compute; discriminate.
  - vm_compute; discriminate.
  - vm_compute; discriminate.
  - vm_compute; reflexivity.
  - exists o1, o2. split; [exact H1|]. split; [exact H2 | exact H3].
Defined.

(** C2.  When the write to the ledger raises, the run ends with that
    exception, the session (and so the cart) is the one the run started
    with, and the page shows no order confirmation.  A run that leaves the
    cart empty is one whose write returned, and it shows the
    confirmation. *)
Theorem failed_write_keeps_cart inp s w :
  clicked_add inp = None -> cart s <> [] -> submit inp = true ->
  name inp <> [] -> address inp <> [] -> pincode inp <> [] ->
  (forall e w',
      save_orders_to_sheet (build_orders inp s) w = (Raise e, w') ->
      exists page,
        run Shop inp s w
        = (Raise e, {| session := s; world := w'; shown := page |})
        /\ ~ In OrderPlaced page)
  /\ (forall r st',
         run Shop inp s w = (r, st') ->
         cart (session st') = [] ->
         r = Ok tt
         /\ (exists u, save_orders_to_sheet (build_orders inp s) w
                       = (Ok u, world st'))
         /\ In OrderPlaced (shown st')).
Proof.
  intros Hc Hne Hs Hn Ha Hp.
  rewrite checkout_run by assumption. cbv zeta.
  rewrite (falsy_false _ Hn), (falsy_false _ Ha), (falsy_false _ Hp).
  cbn [orb]. split.
  - intros e w' Hsave. rewrite Hsave. eexists; split; [reflexivity|].
    intros Hin. apply page_plain in Hin. destruct Hin as [_ Hin].
    apply Hin; reflexivity.
  - intros r st' Hrun Hcart.
    destruct (save_orders_to_sheet _ w) as [[u|e] w'] eqn:Hsave;
      inversion Hrun; subst; cbn [session world shown cart] in *.
    + split; [reflexivity|]. split; [exists u; reflexivity|].
      apply in_or_app. right. left. reflexivity.
    + contradiction.
Qed.

Lemma failed_write_keeps_cart_witness :
  exists page,
    run Shop (Examples.checkout_form "3f2b8c1d-0000-4000-8000-000000000000")
        Examples.two_item_session Examples.failing_world
    = (Raise APIError,
       {| session := Examples.two_item_session;
          world := {| sheet_rows := Some []; fuse := None;
                      numericise := Examples.numericise_int |};
          shown := page |})
    /\ ~ In OrderPlaced page.
Proof.
  apply (proj1 (failed_write_keeps_cart
    (Examples.checkout_form "3f2b8c1d-0000-4000-8000-000000000000")
    Examples.two_item_session Examples.failing_world
    eq_refl ltac:(vm_compute; discriminate) eq_refl
    ltac:(vm_compute; discriminate) ltac:(vm_compute; discriminate)
    ltac:(vm_compute; discriminate))).
  vm_compute; reflexivity.
Defined.

(** C3, as the code has it.  A submitted checkout is rejected exactly when
    the name, the address or the pincode is the empty string; a field that
    holds only whitespace is not empty, and Reference By plays no part.  A
    rejected checkout makes no call to the ledger: the world and the
    session are the ones the run started with. *)
Theorem rejected_iff_field_empty inp s w :
  clicked_add inp = None -> cart s <> [] -> submit inp = true ->
  (In CompleteAllFields (shown (snd (run Shop inp s w)))
   <-> name inp = [] \/ address inp = [] \/ pincode inp = [])
  /\ (In CompleteAllFields (shown (snd (run Shop inp s w))) ->
      fst (run Shop inp s w) = Ok tt
      /\ world (snd (run Shop inp s w)) = w
      /\ session (snd (run Shop inp s w)) = s).
Proof.
  intros Hc Hne Hs. rewrite checkout_run by assumption. cbv zeta.
  destruct (falsy (name inp) || falsy (address inp) || falsy (pincode inp))
    eqn:Hf.
  - cbn [fst snd shown world session]. split.
    + split; [intros _ | intros _; apply in_or_app; right; left; reflexivity].
      rewrite !orb_true_iff, !falsy_true in Hf. tauto.
    + intros _. auto.
  - assert (Hno : ~ (name inp = [] \/ address inp = [] \/ pincode inp = [])).
    { rewrite <- !falsy_true, <- !orb_true_iff, orb_assoc, Hf.
      discriminate. }
    assert (Hpage : ~ In CompleteAllFields
                        (shown (snd
       match save_orders_to_sheet (build_orders inp s) w with
       | (Ok _, w') =>
           (Ok tt,
            {| session := {| user_phone := user_phone s; cart := [] |};
               world := w';
               shown := (grid_page inp rakhi_catalog ++ cart_page (cart s))
                        ++ [OrderPlaced; order_link inp s] |})
       | (Raise e, w') =>
           (Raise e,
            {| session := s; world := w';
               shown := grid_page inp rakhi_catalog ++ cart_page (cart s) |})
       end))).
    { destruct (save_orders_to_sheet _ w) as [[u|e] w'];
        cbn [snd shown]; intros Hin.
      - apply in_app_or in Hin. destruct Hin as [Hin | Hin].
        + apply page_plain in Hin. destruct Hin as [Hin _].
          apply Hin; reflexivity.
        + destruct Hin as [Hin | [Hin | []]]; discriminate.
      - apply page_plain in Hin. destruct Hin as [Hin _].
        apply Hin; reflexivity. }
    split; [split; intros H; contradiction | intros H; contradiction].
Qed.

Lemma rejected_iff_field_empty_witness :
  ~ In CompleteAllFields
      (shown (snd (run Shop
         (Examples.checkout_form "3f2b8c1d-0000-4000-8000-000000000000")
         Examples.two_item_session Examples.empty_world))).
Proof.
  intros H.
  apply (proj1 (proj1 (rejected_iff_field_empty
    (Examples.checkout_form "3f2b8c1d-0000-4000-8000-000000000000")
    Examples.two_item_session Examples.empty_world
    eq_refl ltac:(vm_compute; discriminate) eq_refl))) in H.
  vm_compute in H. destruct H as [H | [H | H]]; discriminate.
Defined.

(** C3, as stated, fails: a name that is a single space is blank, yet the
    checkout is not rejected and the order line reaches the ledger. *)
Lemma whitespace_name_is_accepted :
  (blank (name Examples.space_name_form)
   \/ blank (address Examples.space_name_form)
   \/ blank (pincode Examples.space_name_form))
  /\ ~ In CompleteAllFields
         (shown (snd (run Shop Examples.space_name_form
                        {| user_phone := lit "9876543210";
                           cart := [(lit "IMG_20250707_221915",
                                     Examples.thread_rakhi)] |}
                        Examples.empty_world)))
  /\ List.length
       (cells (world (snd (run Shop Examples.space_name_form
                        {| user_phone := lit "9876543210";
                           cart := [(lit "IMG_20250707_221915",
                                     Examples.thread_rakhi)] |}
                        Examples.empty_world)))) = 1%nat.
Proof.
  split; [left; vm_compute; reflexivity|].
  split; [|vm_compute; reflexivity].
  rewrite checkout_run by (reflexivity || discriminate).
  intros H. cbn [snd shown] in H. apply in_app_or in H.
  destruct H as [H | H].
  - apply page_plain in H. destruct H as [H _]. apply H; reflexivity.
  - destruct H as [H | [H | []]]; discriminate.
Qed.

(* ================================================================== *)
(** * Prices                                                            *)
(* ================================================================== *)

(** C8.  For every product of the catalog, the price the script computes
    in floating point is floor(price * (1 - discount/100)) computed over
    the rationals, and it is at most the base price. *)
Theorem catalog_effective_price key item :
  In (key, item) rakhi_catalog ->
  final_price item = Some (exact_price item)
  /\ exact_price item <= price item.
Proof.
  intros Hin.
  assert (H : forallb (fun entry =>
                match final_price (snd entry) with
                | Some fp => (fp =? exact_price (snd entry))
                             && (exact_price (snd entry) <=? price (snd entry))
                | None => false
                end) rakhi_catalog = true)
    by (vm_compute; reflexivity).
  rewrite forallb_forall in H. specialize (H (key, item) Hin).
  cbn [snd] in H. destruct (final_price item) as [fp|]; [|discriminate].
  apply andb_true_iff in H. destruct H as [H1 H2].
  apply Z.eqb_eq in H1. apply Z.leb_le in H2. subst fp. auto.
Qed.

Lemma catalog_effective_price_witness :
  final_price {| title := lit "Golden Stone Rakhi"; price := 150;
                 discount := 45;
                 image := lit "https://res.cloudinary.com/dx35lfv49/image/upload/v1753777815/WhatsApp%20Image%202025-07-29%20at%2011.43.38_6a4f12e0.jpg" |}
  = Some 82.
Proof.
  refine (proj1 (catalog_effective_price (lit "IMG_20250729_114338_1") _ _)).
  vm_compute. right. left. reflexivity.
Defined.

(* ================================================================== *)
(** * Writing the ledger                                                *)
(* ================================================================== *)

(** C9.  The save writes no header row.  Whatever the worksheet holds, a
    save that returns has appended one row per element of its argument, in
    order, and nothing else; with a reliable API it returns.  On a
    worksheet that held no row the first row is then the first order line,
    where the eleven column names were to stand: [get_all_values] returns
    [[[]]] for such a worksheet, which is not empty, so the branch under
    [# Add header if empty] is not taken. *)
Theorem save_orders_writes_no_header order_rows w :
  (forall u w',
      save_orders_to_sheet order_rows w = (Ok u, w') ->
      cells w' = cells w ++ List.map dict_values order_rows)
  /\ (fuse w = None -> fst (save_orders_to_sheet order_rows w) = Ok tt)
  /\ (forall u w' r0 rest,
         save_orders_to_sheet order_rows w = (Ok u, w') ->
         cells w = [] -> order_rows = r0 :: rest ->
         hd_error (cells w') = Some (dict_values r0)
         /\ List.length (cells w') = List.length order_rows).
Proof.
  split; [|split].
  - intros u w' H. apply (save_orders_Ok _ _ _ _ H).
  - intros Hf. rewrite (save_orders_reliable _ w Hf). reflexivity.
  - intros u w' r0 rest H Hc ->. apply save_orders_Ok in H.
    rewrite H, Hc. cbn [app List.map hd_error List.length].
    rewrite length_map. split; reflexivity.
Qed.

Lemma save_orders_writes_no_header_witness :
  cells (snd (save_orders_to_sheet
                (build_orders
                   (Examples.checkout_form
                      "3f2b8c1d-0000-4000-8000-000000000000")
                   Examples.two_item_session)
                Examples.empty_world))
  = cells Examples.empty_world
    ++ List.map dict_values
         (build_orders
            (Examples.checkout_form "3f2b8c1d-0000-4000-8000-000000000000")
            Examples.two_item_session).
Proof.
  apply (proj1 (save_orders_writes_no_header _ Examples.empty_world) tt).
  vm_compute. reflexivity.
Defined.

(** C10, as the code runs.  [order_rows[0]] is read only under
    [if not sheet.get_all_values()], and that reading is never empty: a
    save of no rows on a worksheet without rows returns and writes
    nothing; a save never raises [IndexError], whatever its argument, the
    worksheet and the API; and no run of the Shop tab, the only caller,
    ends with [IndexError]. *)
Theorem header_index_safe :
  (forall w, fuse w = None ->
             save_orders_to_sheet [] w = (Ok tt, opened w))
  /\ (forall order_rows w,
         fst (save_orders_to_sheet order_rows w) <> Raise IndexError)
  /\ (forall inp s w, fst (run Shop inp s w) <> Raise IndexError).
Proof.
  split; [|split].
  - intros w Hf. rewrite (save_orders_reliable [] w Hf).
    cbn [List.map]. rewrite app_nil_r. unfold opened. rewrite Hf.
    reflexivity.
  - intros order_rows w H.
    destruct (save_orders_to_sheet order_rows w) as [r w'] eqn:E.
    cbn [fst] in H. subst r. apply save_orders_Raise in E.
    destruct E as [E _]; discriminate.
  - intros inp s w. rewrite shop_tab_run. unfold shop_outcome.
    cbn [cart user_phone].
    destruct (cart_after_grid inp rakhi_catalog (cart s)) as [|e c] eqn:Ec;
      [discriminate|].
    destruct (submit inp); [|discriminate].
    destruct (falsy (name inp) || falsy (address inp) || falsy (pincode inp));
      [discriminate|].
    destruct (save_orders_to_sheet _ w) as [[u|e'] w'] eqn:E;
      [discriminate|].
    cbn [fst]. intros H. inversion H; subst e'.
    apply save_orders_Raise in E.
    destruct E as [E _]; discriminate.
Qed.

Lemma header_index_safe_witness :
  fst (run Shop
         (Examples.checkout_form "3f2b8c1d-0000-4000-8000-000000000000")
         Examples.two_item_session Examples.empty_world)
  <> Raise IndexError.
Proof.
  apply (proj2 (proj2 header_index_safe)).
Defined.

(** C10, as stated, fails: on a worksheet without rows a save of no rows
    does not fail; it returns and leaves the worksheet without rows. *)
Lemma empty_save_returns :
  cells Examples.empty_world = []
  /\ fst (save_orders_to_sheet [] Examples.empty_world) = Ok tt
  /\ cells (snd (save_orders_to_sheet [] Examples.empty_world)) = [].
Proof. repeat split. Qed.

(* ================================================================== *)
(** * Adding to the cart                                                *)
(* ================================================================== *)

Lemma cart_after_grid_miss inp key (catalog : dict product) :
  clicked_add inp = Some key ->
  ~ In key (dict_keys catalog) ->
  forall c, cart_after_grid inp catalog c = c.
Proof.
  intros Hc. unfold cart_after_grid, clicked. rewrite Hc.
  induction catalog as [|[k it] catalog IH]; intros Hk c; [reflexivity|].
  cbn [fold_left fst snd].
  rewrite str_eqb_neq by (intros ->; apply Hk; left; reflexivity).
  assert (Hk' : ~ In key (dict_keys catalog))
    by (intros H; apply Hk; right; exact H).
  destruct (final_price it); apply (IH Hk').
Qed.

(** The product grid of a run that presses one Add to Cart button runs the
    body of that button once. *)
Lemma cart_after_grid_click inp key item fp (catalog : dict product) :
  clicked_add inp = Some key ->
  final_price item = Some fp ->
  NoDup (dict_keys catalog) ->
  In (key, item) catalog ->
  forall c,
    cart_after_grid inp catalog c
    = add_to_cart key item fp (qty inp key) c.
Proof.
  intros Hc Hfp. induction catalog as [|[k it] catalog IH];
    intros Hnd Hin c; [destruct Hin|].
  cbn [dict_keys List.map fst] in Hnd. apply NoDup_cons_iff in Hnd.
  destruct Hnd as [Hk Hnd]. destruct Hin as [Hin | Hin].
  - inversion Hin; subst k it; clear Hin.
    change (cart_after_grid inp ((key, item) :: catalog) c)
      with (cart_after_grid inp catalog
              (match final_price item with
               | Some fp0 =>
                   if clicked inp key
                   then add_to_cart key item fp0 (qty inp key) c
                   else c
               | None => c
               end)).
    rewrite Hfp. unfold clicked at 1. rewrite Hc, str_eqb_refl.
    apply (cart_after_grid_miss inp key catalog Hc Hk).
  - assert (Hne : key <> k).
    { intros ->. apply Hk. apply in_map_iff. exists (k, item). auto. }
    change (cart_after_grid inp ((k, it) :: catalog) c)
      with (cart_after_grid inp catalog
              (match final_price it with
               | Some fp0 =>
                   if clicked inp k
                   then add_to_cart k it fp0 (qty inp k) c
                   else c
               | None => c
               end)).
    unfold clicked at 1. rewrite Hc, (str_eqb_neq _ _ Hne).
    destruct (final_price it); apply (IH Hnd Hin).
Qed.

Lemma catalog_keys_distinct : NoDup (dict_keys rakhi_catalog).
Proof.
  assert (H : dict_keys rakhi_catalog
              = nodup (list_eq_dec N.eq_dec) (dict_keys rakhi_catalog))
    by (vm_compute; reflexivity).
  rewrite H. apply NoDup_nodup.
Qed.

(** A run that presses Add to Cart and does not submit. *)
Lemma add_run inp key q item fp s w :
  adds key q inp ->
  In (key, item) rakhi_catalog ->
  final_price item = Some fp ->
  session (snd (run Shop inp s w))
  = {| user_phone := user_phone s;
       cart := add_to_cart key item fp q (cart s) |}
  /\ world (snd (run Shop inp s w)) = w
  /\ fst (run Shop inp s w) = Ok tt.
Proof.
  intros (Hc & Hq & Hs) Hin Hfp. rewrite shop_tab_run. unfold shop_outcome.
  cbn [cart user_phone].
  rewrite (cart_after_grid_click inp key item fp rakhi_catalog Hc Hfp
             catalog_keys_distinct Hin), Hq, Hs.
  destruct (add_to_cart key item fp q (cart s)); auto.
Qed.

(** C6.  Two runs that press Add to Cart on the same product, with
    positive quantities q1 and then q2, turn an empty cart into a cart of
    one line: the product's title, its price after discount, and quantity
    q1 + q2.  Pressing with q2 first and q1 second gives the same cart. *)
Theorem add_twice_accumulates key item q1 q2 a b a' b' phone w :
  In (key, item) rakhi_catalog ->
  0 < q1 -> 0 < q2 ->
  adds key q1 a -> adds key q2 b ->
  adds key q2 a' -> adds key q1 b' ->
  exists fp,
    final_price item = Some fp
    /\ cart (fst (after_runs [a; b] {| user_phone := phone; cart := [] |} w))
       = [(key, {| line_title := title item; line_price := fp;
                   quantity := q1 + q2 |})]
    /\ cart (fst (after_runs [a'; b']
                    {| user_phone := phone; cart := [] |} w))
       = cart (fst (after_runs [a; b]
                      {| user_phone := phone; cart := [] |} w)).
Proof.
  intros Hin _ _ Ha Hb Ha' Hb'.
  destruct (final_price item) as [fp|] eqn:Hfp.
  2:{ exfalso. pose proof catalog_priced as Hp.
      rewrite Forall_forall in Hp. apply (Hp (key, item) Hin). exact Hfp. }
  exists fp. split; [reflexivity|].
  assert (Two : forall x y qx qy, adds key qx x -> adds key qy y ->
    cart (fst (after_runs [x; y] {| user_phone := phone; cart := [] |} w))
    = [(key, {| line_title := title item; line_price := fp;
                quantity := qx + qy |})]).
  { intros x y qx qy Hx Hy. unfold after_runs. cbn [fold_left fst snd].
    destruct (add_run x key qx item fp
                {| user_phone := phone; cart := [] |} w Hx Hin Hfp)
      as (Hs1 & Hw1 & _).
    rewrite Hs1, Hw1. cbn [user_phone cart].
    destruct (add_run y key qy item fp
                {| user_phone := phone;
                   cart := add_to_cart key item fp qx [] |} w Hy Hin Hfp)
      as (Hs2 & _ & _).
    rewrite Hs2. cbn [cart user_phone]. unfold add_to_cart.
    cbn [dict_get dict_set]. rewrite !str_eqb_refl.
    cbn [dict_set line_title line_price quantity]. reflexivity. }
  split.
  - apply (Two a b q1 q2 Ha Hb).
  - rewrite (Two a' b' q2 q1 Ha' Hb'), (Two a b q1 q2 Ha Hb).
    rewrite (Z.add_comm q2 q1). reflexivity.
Qed.

Lemma add_twice_accumulates_witness :
  exists fp,
    final_price {| title := lit "Golden Stone Rakhi"; price := 150;
                   discount := 45;
                   image := lit "https://res.cloudinary.com/dx35lfv49/image/upload/v1753777815/WhatsApp%20Image%202025-07-29%20at%2011.43.38_6a4f12e0.jpg" |}
    = Some fp
    /\ cart (fst (after_runs
                    [Examples.press_add "IMG_20250729_114338_1" 2;
                     Examples.press_add "IMG_20250729_114338_1" 3]
                    {| user_phone := lit "9876543210"; cart := [] |}
                    Examples.empty_world))
       = [(lit "IMG_20250729_114338_1",
           {| line_title := lit "Golden Stone Rakhi"; line_price := fp;
              quantity := 2 + 3 |})].
Proof.
  destruct (add_twice_accumulates (lit "IMG_20250729_114338_1")
    {| title := lit "Golden Stone Rakhi"; price := 150; discount := 45;
       image := lit "https://res.cloudinary.com/dx35lfv49/image/upload/v1753777815/WhatsApp%20Image%202025-07-29%20at%2011.43.38_6a4f12e0.jpg" |}
    2 3
    (Examples.press_add "IMG_20250729_114338_1" 2)
    (Examples.press_add "IMG_20250729_114338_1" 3)
    (Examples.press_add "IMG_20250729_114338_1" 3)
    (Examples.press_add "IMG_20250729_114338_1" 2)
    (lit "9876543210") Examples.empty_world)
    as (fp & H1 & H2 & _).
  - vm_compute. right. left. reflexivity.
  - lia.
  - lia.
  - repeat split.
  - repeat split.
  - repeat split.
  - repeat split.
  - exists fp. split; [exact H1 | exact H2].
Defined.

(* ================================================================== *)
(** * Reading the ledger                                                *)
(* ================================================================== *)

Lemma pad_length n r :
  (List.length r <= n)%nat -> List.length (pad n r) = n.
Proof. intros H. unfold pad. rewrite length_app, repeat_length. lia. Qed.

Lemma pad_exact n r : List.length r = n -> pad n r = r.
Proof.
  intros <-. unfold pad. rewrite Nat.sub_diag. apply app_nil_r.
Qed.

Lemma combine_keys {A B} (ks : list A) (vs : list B) :
  List.length vs = List.length ks -> List.map fst (combine ks vs) = ks.
Proof.
  revert vs; induction ks as [|k ks IH]; intros [|v vs] H; simpl in *;
    try reflexivity; try discriminate.
  rewrite IH by lia. reflexivity.
Qed.


Lemma order_columns_distinct : NoDup ORDER_COLUMNS.
Proof.
  assert (H : ORDER_COLUMNS = nodup (list_eq_dec N.eq_dec) ORDER_COLUMNS)
    by (vm_compute; reflexivity).
  rewrite H. apply NoDup_nodup.
Qed.

(** A ledger in its storage format is eleven cells wide. *)
Lemma width_ledger h rs :
  ledger_ok (h :: rs) -> width (h :: rs) = 11%nat.
Proof.
  intros [Hh Hrs].
  assert (Lh : List.length h = 11%nat).
  { rewrite <- (length_map pystr), Hh. reflexivity. }
  assert (W : (width rs <= 11)%nat).
  { clear Hh Lh. induction rs as [|r rs IH]; [cbn; lia|].
    cbn [forallb] in Hrs. apply andb_true_iff in Hrs.
    destruct Hrs as [Hr Hrs]. apply Nat.leb_le in Hr.
    specialize (IH Hrs). unfold width in *. cbn [fold_right]. lia. }
  unfold width in *. cbn [fold_right]. lia.
Qed.

(** A row read under the eleven columns is the pairing of the columns with
    its re-typed cells. *)
Lemma record_of_row retype (r : list value) :
  (List.length r <= 11)%nat ->
  dict_of_list
    (combine ORDER_COLUMNS (List.map retype (pad 11 (List.map pystr r))))
  = read_row retype r
  /\ dict_keys (read_row retype r) = ORDER_COLUMNS.
Proof.
  intros Hr. unfold read_row.
  assert (K : List.map fst
                (combine ORDER_COLUMNS
                   (List.map retype (pad 11 (List.map pystr r))))
              = ORDER_COLUMNS).
  { apply combine_keys. rewrite length_map, pad_length; [reflexivity|].
    rewrite length_map. exact Hr. }
  split; [|exact K].
  apply dict_of_list_nodup. rewrite K. apply order_columns_distinct.
Qed.

Lemma ledger_rows_short h rs r :
  ledger_ok (h :: rs) -> In r rs -> (List.length r <= 11)%nat.
Proof.
  intros [_ Hrs] Hin. rewrite forallb_forall in Hrs.
  apply Nat.leb_le. apply Hrs. exact Hin.
Qed.

Lemma records_of_ledger retype h rs :
  ledger_ok (h :: rs) ->
  records_of retype (h :: rs) = List.map (read_row retype) rs.
Proof.
  intros Hok. unfold records_of. rewrite (width_ledger h rs Hok).
  cbv zeta. rewrite (proj1 Hok).
  rewrite (pad_exact 11 ORDER_COLUMNS eq_refl).
  apply map_ext_in. intros r Hr.
  apply (proj1 (record_of_row retype r (ledger_rows_short h rs r Hok Hr))).
Qed.

Lemma records_keys retype g :
  ledger_ok g ->
  Forall (fun r => dict_keys r = ORDER_COLUMNS) (records_of retype g).
Proof.
  destruct g as [|h rs]; intros Hok; [constructor|].
  rewrite (records_of_ledger retype h rs Hok). apply Forall_forall.
  intros r Hr. apply in_map_iff in Hr. destruct Hr as (row & <- & Hrow).
  apply (proj2 (record_of_row retype row
                  (ledger_rows_short h rs row Hok Hrow))).
Qed.

Lemma dict_get_present {V} (k : str) (d : dict V) :
  In k (dict_keys d) -> exists v, dict_get k d = Some v.
Proof.
  induction d as [|[k' v'] d IH]; simpl; intros H; [destruct H|].
  destruct (str_eqb k k') eqn:E; [eauto|].
  destruct H as [H | H]; [|auto].
  subst k'. rewrite str_eqb_refl in E. discriminate.
Qed.

Lemma dict_get_set_same {V} (k : str) (v : V) (d : dict V) :
  dict_get k (dict_set k v d) = Some v.
Proof.
  induction d as [|[k' v'] d IH]; simpl.
  - rewrite str_eqb_refl; reflexivity.
  - destruct (str_eqb k k') eqn:E; simpl; rewrite E; [reflexivity | exact IH].
Qed.

Lemma dict_get_set_other {V} (k key : str) (v : V) (d : dict V) :
  k <> key -> dict_get k (dict_set key v d) = dict_get k d.
Proof.
  intros Hne. induction d as [|[k' v'] d IH]; simpl.
  - rewrite (str_eqb_neq _ _ Hne). reflexivity.
  - destruct (str_eqb key k') eqn:E; simpl.
    + apply str_eqb_eq in E. subst k'.
      rewrite (str_eqb_neq _ _ Hne). reflexivity.
    + rewrite IH. reflexivity.
Qed.

(** Setting a key to the value it holds changes nothing. *)
Lemma dict_set_same {V} (k : str) (v : V) (d : dict V) :
  dict_get k d = Some v -> dict_set k v d = d.
Proof.
  induction d as [|[k' v'] d IH]; simpl; [discriminate|].
  destruct (str_eqb k k') eqn:E.
  - intros H; inversion H; reflexivity.
  - intros H. rewrite (IH H). reflexivity.
Qed.

Lemma has_phone (r : dict value) :
  dict_keys r = ORDER_COLUMNS -> exists v, dict_get (lit "Phone") r = Some v.
Proof.
  intros Hk. apply dict_get_present. rewrite Hk.
  do 6 right. left. reflexivity.
Qed.

(** Reading one column off rows that all have it. *)
Lemma column_cells {S} (c : str) (rs : list (dict value)) (st : S) :
  Forall (fun r => exists v, dict_get c r = Some v) rs ->
  exists vs,
    map_M (fun r => getitem r c) rs st = (Ok vs, st)
    /\ Forall2 (fun r v => dict_get c r = Some v) rs vs.
Proof.
  induction 1 as [|r rs [v Hv] _ [vs [IH1 IH2]]].
  - exists []. split; [reflexivity | constructor].
  - exists (v :: vs). split; [|constructor; assumption].
    cbn [map_M]. unfold bind at 1, getitem at 1. rewrite Hv.
    unfold ret at 1. unfold bind. rewrite IH1. reflexivity.
Qed.

Lemma normal_phone_row (r : dict value) v :
  dict_get (lit "Phone") r = Some v ->
  phone_of r = Some (normal_phone v)
  /\ with_normal_phone r
     = dict_set (lit "Phone") (VStr (normal_phone v)) r.
Proof.
  intros Hv. unfold with_normal_phone, phone_of. rewrite Hv.
  split; reflexivity.
Qed.

Lemma set_phone_rows (rs : list (dict value)) (vs : list value) :
  Forall2 (fun r v => dict_get (lit "Phone") r = Some v) rs vs ->
  List.map (fun rv => dict_set (lit "Phone") (snd rv) (fst rv))
    (combine rs (List.map (fun v => VStr (strip (pystr v))) vs))
  = List.map with_normal_phone rs.
Proof.
  induction 1 as [|r v rs vs Hv _ IH]; [reflexivity|].
  cbn [List.map combine fst snd]. rewrite IH.
  rewrite (proj2 (normal_phone_row r v Hv)). reflexivity.
Qed.

Lemma filter_phone_rows (p : str) (rs : list (dict value)) :
  Forall (fun r => exists v, dict_get (lit "Phone") r = Some v) rs ->
  filter (has_key (lit "Phone") (VStr p)) (List.map with_normal_phone rs)
  = List.map with_normal_phone
      (filter (fun r => match phone_of r with
                        | Some s => str_eqb s p
                        | None => false
                        end) rs).
Proof.
  induction 1 as [|r rs [v Hv] _ IH]; [reflexivity|].
  destruct (normal_phone_row r v Hv) as [Hp Hn].
  assert (Hk : has_key (lit "Phone") (VStr p) (with_normal_phone r)
               = str_eqb (normal_phone v) p).
  { rewrite Hn. unfold has_key. rewrite dict_get_set_same. reflexivity. }
  cbn [List.map filter]. rewrite IH, Hp, Hk.
  destruct (str_eqb (normal_phone v) p); reflexivity.
Qed.

Lemma get_all_records_reliable w :
  fuse w = None -> get_all_records tt w = (Ok (records w), w).
Proof.
  intros H. unfold get_all_records, bind, get, ret.
  rewrite (api_call_reliable w H). reflexivity.
Qed.

(** With a reliable API the query returns [user_rows] and leaves the
    worksheet opened. *)
Lemma get_user_orders_reliable p w :
  ledger_ok (cells w) -> fuse w = None ->
  get_user_orders p w
  = (Ok {| columns := ORDER_COLUMNS; rows := user_rows p w |}, opened w).
Proof.
  intros Hok Hf.
  assert (E : get_user_orders p w
              = (match records w with
                 | [] => ret {| columns := ORDER_COLUMNS; rows := [] |}
                 | _ :: _ =>
                     let df := DataFrame_of_records (records w) in
                     phones <- column df (lit "Phone") ;;
                     let df := set_column df (lit "Phone")
                       (List.map (fun v => VStr (strip (pystr v))) phones) in
                     ret (select_rows df
                            (has_key (lit "Phone")
                               (VStr (strip (pystr p)))))
                 end) (opened w)).
  { unfold get_user_orders, _get_gspread_client.
    erewrite bind_run; [|apply api_call_reliable; exact Hf].
    erewrite bind_run; [|apply get_worksheet_reliable; exact Hf].
    erewrite bind_run; [|apply get_all_records_reliable; exact Hf].
    reflexivity. }
  rewrite E. clear E. unfold user_rows.
  pose proof (records_keys (numericise w) (cells w) Hok) as Hkeys.
  fold (records w) in Hkeys.
  destruct (records w) as [|r0 rs] eqn:Hrec; [reflexivity|].
  assert (Hph : Forall (fun r => exists v,
                          dict_get (lit "Phone") r = Some v) (r0 :: rs)).
  { eapply Forall_impl; [|exact Hkeys]. intros r. apply has_phone. }
  cbv zeta. unfold column, has_column, DataFrame_of_records.
  cbn [columns rows]. inversion Hkeys as [|? ? Hk0 _]; subst.
  rewrite Hk0.
  replace (existsb (str_eqb (lit "Phone")) ORDER_COLUMNS) with true
    by (vm_compute; reflexivity).
  destruct (column_cells (lit "Phone") (r0 :: rs) (opened w) Hph)
    as (vs & Hrun & Hvs).
  unfold bind. rewrite Hrun. unfold ret, select_rows, set_column.
  cbn [fst columns rows].
  rewrite (set_phone_rows (r0 :: rs) vs Hvs).
  rewrite (filter_phone_rows (strip (pystr p)) (r0 :: rs) Hph).
  reflexivity.
Qed.




(* ================================================================== *)
(** * Writing, then reading                                             *)
(* ================================================================== *)

Lemma dict_values_length (o : dict value) :
  dict_keys o = ORDER_COLUMNS -> List.length (dict_values o) = 11%nat.
Proof.
  intros Hk. unfold dict_values. rewrite length_map.
  rewrite <- (length_map fst). fold (dict_keys o). rewrite Hk. reflexivity.
Qed.



(** Rows of at most eleven cells keep a ledger with its header in the
    storage format. *)
Lemma ledger_headed_app g added :
  ledger_headed g ->
  forallb (fun r => (List.length r <=? 11)%nat) added = true ->
  ledger_headed (g ++ added).
Proof.
  intros [Hne Hok] Ha. destruct g as [|h rs]; [contradiction|].
  split; [discriminate|]. destruct Hok as [Hh Hrs].
  cbn [app ledger_ok]. split; [exact Hh|].
  rewrite forallb_app, Hrs, Ha. reflexivity.
Qed.

Lemma in_firstn {A} (x : A) n (l : list A) : In x (firstn n l) -> In x l.
Proof.
  revert l; induction n as [|n IH]; intros [|y l] H; simpl in *;
    try contradiction.
  destruct H as [H | H]; [left; exact H | right; apply IH; exact H].
Qed.

Lemma written_rows_short (orders : list (dict value)) n :
  Forall (fun o => dict_keys o = ORDER_COLUMNS) orders ->
  forallb (fun r => (List.length r <=? 11)%nat)
    (firstn n (List.map dict_values orders)) = true.
Proof.
  intros Hk. apply forallb_forall. intros r Hr.
  apply in_firstn in Hr.
  apply in_map_iff in Hr. destruct Hr as (o & <- & Ho).
  rewrite Forall_forall in Hk.
  rewrite (dict_values_length o (Hk o Ho)). reflexivity.
Qed.

(** The save keeps a ledger that has its header in the storage format. *)
Lemma save_keeps_ledger_headed (orders : list (dict value)) g :
  ledger_headed g ->
  Forall (fun o => dict_keys o = ORDER_COLUMNS) orders ->
  ledger_headed (g ++ List.map dict_values orders).
Proof.
  intros Hok Hk. apply ledger_headed_app; [exact Hok|].
  rewrite <- (firstn_all (List.map dict_values orders)).
  apply written_rows_short. exact Hk.
Qed.








(* ================================================================== *)
(** * The order of group keys                                           *)
(* ================================================================== *)

Lemma str_compare_eq (a b : str) : str_compare a b = Eq -> a = b.
Proof.
  revert b; induction a as [|x a IH]; intros [|y b]; simpl;
    try discriminate; try reflexivity.
  destruct (N.compare x y) eqn:E; try discriminate.
  apply N.compare_eq in E. intros H. rewrite (IH b H), E. reflexivity.
Qed.

Lemma str_compare_refl (a : str) : str_compare a a = Eq.
Proof.
  induction a as [|x a IH]; simpl; [reflexivity|].
  rewrite N.compare_refl. exact IH.
Qed.

Lemma str_compare_antisym (a b : str) :
  str_compare b a = CompOpp (str_compare a b).
Proof.
  revert b; induction a as [|x a IH]; intros [|y b]; simpl;
    try reflexivity.
  rewrite (N.compare_antisym x y).
  destruct (N.compare x y); simpl; auto.
Qed.

Lemma str_compare_trans (a b c : str) :
  str_compare a b = Lt -> str_compare b c = Lt -> str_compare a c = Lt.
Proof.
  revert b c; induction a as [|x a IH]; intros [|y b] [|z c]; simpl;
    try discriminate; try reflexivity.
  destruct (N.compare x y) eqn:Exy; try discriminate;
    destruct (N.compare y z) eqn:Eyz; try discriminate; intros H1 H2.
  - apply N.compare_eq in Exy, Eyz. subst. rewrite N.compare_refl.
    apply (IH b c H1 H2).
  - apply N.compare_eq in Exy. subst. rewrite Eyz. reflexivity.
  - apply N.compare_eq in Eyz. subst. rewrite Exy. reflexivity.
  - rewrite N.compare_lt_iff in Exy, Eyz.
    assert (E : (x ?= z)%N = Lt) by (apply N.compare_lt_iff; lia).
    rewrite E. reflexivity.
Qed.

Lemma value_compare_eq (a b : value) : value_compare a b = Eq -> a = b.
Proof.
  destruct a, b; simpl; try discriminate; intros H.
  - apply Z.compare_eq in H. subst; reflexivity.
  - apply str_compare_eq in H. subst; reflexivity.
Qed.

Lemma value_compare_antisym (a b : value) :
  value_compare b a = CompOpp (value_compare a b).
Proof.
  destruct a, b; simpl; try reflexivity.
  - apply Z.compare_antisym.
  - apply str_compare_antisym.
Qed.

Lemma value_lt_trans (a b c : value) :
  value_lt a b -> value_lt b c -> value_lt a c.
Proof.
  unfold value_lt. destruct a, b, c; simpl; try discriminate;
    try reflexivity.
  - rewrite !Z.compare_lt_iff. lia.
  - apply str_compare_trans.
Qed.

Lemma value_lt_irrefl (a : value) : ~ value_lt a a.
Proof.
  unfold value_lt. destruct a; simpl.
  - rewrite Z.compare_refl. discriminate.
  - rewrite str_compare_refl. discriminate.
Qed.

Lemma value_eqb_eq (a b : value) : value_eqb a b = true <-> a = b.
Proof.
  destruct a, b; simpl; try (split; discriminate).
  - rewrite Z.eqb_eq. split; [intros ->; reflexivity | congruence].
  - rewrite str_eqb_eq. split; [intros ->; reflexivity | congruence].
Qed.

Lemma insert_key_In k k' l :
  In k' (insert_key k l) <-> k' = k \/ In k' l.
Proof.
  induction l as [|h t IH]; simpl.
  - intuition.
  - destruct (value_compare k h) eqn:E; simpl.
    + apply value_compare_eq in E. subst h. intuition.
    + intuition.
    + rewrite IH. intuition.
Qed.

Lemma insert_key_sorted k l :
  StronglySorted value_lt l -> StronglySorted value_lt (insert_key k l).
Proof.
  induction 1 as [|h t Hs IH Hh]; simpl.
  - constructor; constructor.
  - destruct (value_compare k h) eqn:E.
    + constructor; assumption.
    + constructor; [constructor; assumption|].
      constructor; [exact E|].
      eapply Forall_impl; [|exact Hh].
      intros x Hx. apply (value_lt_trans k h x E Hx).
    + constructor; [exact IH|].
      apply Forall_forall. intros x Hx. apply insert_key_In in Hx.
      destruct Hx as [-> | Hx].
      * unfold value_lt. rewrite value_compare_antisym, E. reflexivity.
      * rewrite Forall_forall in Hh. apply Hh; exact Hx.
Qed.

(** [group_keys] lists the keys in strictly ascending order. *)
Lemma group_keys_sorted ks : StronglySorted value_lt (group_keys ks).
Proof.
  induction ks as [|k ks IH]; simpl; [constructor|].
  apply insert_key_sorted; exact IH.
Qed.

(** [group_keys] lists exactly the keys that occur. *)
Lemma group_keys_In ks k : In k (group_keys ks) <-> In k ks.
Proof.
  induction ks as [|k0 ks IH]; simpl; [reflexivity|].
  rewrite insert_key_In, IH. intuition.
Qed.

Lemma sorted_NoDup l : StronglySorted value_lt l -> NoDup l.
Proof.
  induction 1 as [|h t Hs IH Hh]; constructor; [|exact IH].
  intros Hin. rewrite Forall_forall in Hh.
  apply (value_lt_irrefl h). apply Hh; exact Hin.
Qed.

(* ================================================================== *)
(** * One run of the My Orders tab                                      *)
(* ================================================================== *)

Lemma showing_nil st : showing st [] = st.
Proof. unfold showing. rewrite app_nil_r. destruct st; reflexivity. Qed.

Lemma showing_showing st a b :
  showing (showing st a) b = showing st (a ++ b).
Proof. unfold showing; cbn. rewrite app_assoc. reflexivity. Qed.

Lemma show_run u st : show u st = (Ok tt, showing st [u]).
Proof. reflexivity. Qed.

Lemma dict_set_keys {V} (k : str) (v : V) (d : dict V) :
  (exists v0, dict_get k d = Some v0) ->
  dict_keys (dict_set k v d) = dict_keys d.
Proof.
  induction d as [|[k' v'] d IH]; simpl; intros [v0 H]; [discriminate|].
  destruct (str_eqb k k') eqn:E; simpl; [reflexivity|].
  f_equal. apply IH. eauto.
Qed.

Lemma user_rows_keys p w :
  ledger_ok (cells w) ->
  Forall (fun r => dict_keys r = ORDER_COLUMNS) (user_rows p w).
Proof.
  intros Hok. pose proof (records_keys (numericise w) (cells w) Hok) as Hk.
  unfold user_rows, records. apply Forall_forall. intros r Hr.
  apply in_map_iff in Hr. destruct Hr as (r0 & <- & Hr0).
  apply filter_In in Hr0. destruct Hr0 as [Hr0 _].
  rewrite Forall_forall in Hk. specialize (Hk r0 Hr0).
  destruct (has_phone r0 Hk) as [v Hv].
  rewrite (proj2 (normal_phone_row r0 v Hv)).
  rewrite dict_set_keys by eauto. exact Hk.
Qed.

Lemma getitem_cell {S} (r : dict value) (c : str) (st : S) :
  In c (dict_keys r) -> getitem r c st = (Ok (cell c r), st).
Proof.
  intros H. destruct (dict_get_present c r H) as [v Hv].
  unfold getitem, cell. rewrite Hv. reflexivity.
Qed.

Lemma order_ids_cells (rs : list (dict value)) vs :
  Forall2 (fun r v => dict_get (lit "Order ID") r = Some v) rs vs ->
  vs = order_ids rs.
Proof.
  induction 1 as [|r v rs vs Hv _ IH]; [reflexivity|].
  unfold order_ids. cbn [flat_map]. rewrite Hv. cbn [app].
  f_equal. exact IH.
Qed.

Lemma column_order_ids {S} (rs : list (dict value)) (st : S) :
  Forall (fun r => dict_keys r = ORDER_COLUMNS) rs ->
  column {| columns := ORDER_COLUMNS; rows := rs |} (lit "Order ID") st
  = (Ok (order_ids rs), st).
Proof.
  intros Hk. unfold column, has_column. cbn [columns rows].
  replace (existsb (str_eqb (lit "Order ID")) ORDER_COLUMNS) with true
    by (vm_compute; reflexivity).
  assert (Hid : Forall (fun r => exists v,
                          dict_get (lit "Order ID") r = Some v) rs).
  { eapply Forall_impl; [|exact Hk]. intros r Hr.
    apply dict_get_present. rewrite Hr. left; reflexivity. }
  destruct (column_cells (lit "Order ID") rs st Hid) as (vs & Hrun & Hvs).
  rewrite Hrun. rewrite (order_ids_cells rs vs Hvs). reflexivity.
Qed.

(** Every key of the grouping has a row. *)
Lemma rows_of_order_nonempty k (rs : list (dict value)) :
  In k (order_ids rs) -> rows_of_order k rs <> [].
Proof.
  intros Hin. unfold order_ids in Hin. apply in_flat_map in Hin.
  destruct Hin as (r & Hr & Hk).
  destruct (dict_get (lit "Order ID") r) as [v|] eqn:Hv; [|destruct Hk].
  destruct Hk as [-> | []].
  assert (Hin : In r (rows_of_order k rs)).
  { unfold rows_of_order. apply filter_In. split; [exact Hr|].
    unfold has_key. rewrite Hv. apply value_eqb_eq. reflexivity. }
  intros E. rewrite E in Hin. destruct Hin.
Qed.

Lemma table_cells {S} (r : dict value) (cs : list str) (st : S) :
  Forall (fun c => In c (dict_keys r)) cs ->
  map_M (fun c => v <- getitem r c ;; ret (c, v)) cs st
  = (Ok (List.map (fun c => (c, cell c r)) cs), st).
Proof.
  induction 1 as [|c cs Hc _ IH]; [reflexivity|].
  cbn [map_M List.map].
  erewrite bind_run;
    [|erewrite bind_run; [reflexivity | apply getitem_cell; exact Hc]].
  erewrite bind_run; [reflexivity | exact IH].
Qed.

Lemma table_columns_present (r : dict value) :
  dict_keys r = ORDER_COLUMNS ->
  Forall (fun c => In c (dict_keys r)) TABLE_COLUMNS.
Proof.
  intros ->. unfold TABLE_COLUMNS, dict_keys.
  constructor; [do 1 right; left; reflexivity|].
  constructor; [do 2 right; left; reflexivity|].
  constructor; [do 3 right; left; reflexivity|].
  constructor; [do 4 right; left; reflexivity|].
  constructor; [do 10 right; left; reflexivity|].
  constructor.
Qed.

Lemma select_table {S} (cols : list str) (rs : list (dict value)) (st : S) :
  Forall (fun r => dict_keys r = ORDER_COLUMNS) rs ->
  select_columns {| columns := cols; rows := rs |} TABLE_COLUMNS st
  = (Ok (order_table rs), st).
Proof.
  intros Hk. unfold select_columns, order_table. cbn [rows].
  assert (E : map_M (fun r =>
                map_M (fun c => v <- getitem r c ;; ret (c, v))
                      TABLE_COLUMNS) rs st
              = (Ok (List.map (fun r => List.map (fun c => (c, cell c r))
                                          TABLE_COLUMNS) rs), st)).
  { induction Hk as [|r rs Hr _ IH]; [reflexivity|].
    cbn [map_M List.map].
    erewrite bind_run;
      [|apply table_cells; apply table_columns_present; exact Hr].
    erewrite bind_run; [reflexivity | exact IH]. }
  erewrite bind_run; [reflexivity | exact E].
Qed.

(** One turn of the loop over the groups. *)
Lemma show_order_run oid cols first rest st :
  Forall (fun r => dict_keys r = ORDER_COLUMNS) (first :: rest) ->
  show_order (oid, {| columns := cols; rows := first :: rest |}) st
  = (Ok tt, showing st (order_page oid (first :: rest))).
Proof.
  intros Hk. inversion Hk as [|? ? Hf _]; subst.
  assert (Hin : forall c, In c ORDER_COLUMNS -> In c (dict_keys first))
    by (intros c Hc; rewrite Hf; exact Hc).
  unfold show_order, order_page.
  erewrite bind_run; [|apply show_run].
  erewrite bind_run; [|reflexivity].
  erewrite bind_run; [|apply getitem_cell; apply Hin; cbn; tauto].
  erewrite bind_run; [|apply getitem_cell; apply Hin; cbn; tauto].
  erewrite bind_run; [|apply getitem_cell; apply Hin; cbn; tauto].
  erewrite bind_run; [|apply show_run]. rewrite showing_showing.
  fold (cell (lit "Reference By") first).
  destruct (falsy (strip (pystr (cell (lit "Reference By") first)))).
  - erewrite bind_run; [|reflexivity].
    erewrite bind_run; [|apply select_table; exact Hk].
    rewrite show_run, showing_showing. reflexivity.
  - erewrite bind_run;
      [|erewrite bind_run;
         [apply show_run | apply getitem_cell; apply Hin; cbn; tauto]].
    rewrite showing_showing.
    erewrite bind_run; [|apply select_table; exact Hk].
    rewrite show_run, showing_showing. rewrite <- !app_assoc. reflexivity.
Qed.

Lemma show_orders_run cols (rs : list (dict value)) (keys : list value) :
  Forall (fun r => dict_keys r = ORDER_COLUMNS) rs ->
  (forall k, In k keys -> rows_of_order k rs <> []) ->
  forall st,
    for_each
      (List.map (fun k => (k, select_rows {| columns := cols; rows := rs |}
                                (has_key (lit "Order ID") k))) keys)
      show_order st
    = (Ok tt,
       showing st (flat_map (fun k => order_page k (rows_of_order k rs))
                            keys)).
Proof.
  intros Hk. induction keys as [|k keys IH]; intros Hne st.
  - cbn. unfold ret. rewrite showing_nil. reflexivity.
  - cbn [List.map for_each flat_map]. unfold bind.
    unfold select_rows at 1. cbn [columns rows].
    fold (rows_of_order k rs).
    assert (Hg : Forall (fun r => dict_keys r = ORDER_COLUMNS)
                   (rows_of_order k rs)).
    { apply Forall_forall. intros r Hr. unfold rows_of_order in Hr.
      apply filter_In in Hr. rewrite Forall_forall in Hk.
      apply Hk. apply Hr. }
    destruct (rows_of_order k rs) as [|first rest] eqn:E.
    { exfalso. apply (Hne k); [left; reflexivity | exact E]. }
    rewrite (show_order_run k cols first rest st Hg).
    rewrite IH by (intros k' Hk'; apply Hne; right; exact Hk').
    rewrite showing_showing. reflexivity.
Qed.

(** The My Orders tab shows [orders_page] of the rows of the user. *)
Lemma my_orders_run inp s w :
  ledger_ok (cells w) -> fuse w = None ->
  run MyOrders inp s w
  = (Ok tt,
     {| session := s; world := opened w;
        shown := orders_page
                   (user_rows (VStr (strip (user_phone s))) w) |}).
Proof.
  intros Hok Hf. unfold run, script, my_orders_tab.
  unfold bind at 1, get at 1. cbn [session user_phone].
  unfold bind at 1, on_world, zoom. cbn [world].
  rewrite (get_user_orders_reliable _ w Hok Hf).
  pose proof (user_rows_keys (VStr (strip (user_phone s))) w Hok)
    as Hk.
  destruct (user_rows (VStr (strip (user_phone s))) w)
    as [|r rs] eqn:E.
  - reflexivity.
  - cbn [empty columns rows ORDER_COLUMNS].
    change ([lit "Order ID"; lit "Product"; lit "Quantity";
             lit "Unit Price"; lit "Subtotal"; lit "Name"; lit "Phone";
             lit "Address"; lit "Pincode"; lit "Reference By";
             lit "Timestamp"]) with ORDER_COLUMNS.
    unfold bind at 1, nunique, bind at 1.
    rewrite (column_order_ids (r :: rs) _ Hk). unfold ret at 1.
    unfold bind at 1. rewrite show_run.
    unfold bind at 1, groupby, bind at 1.
    rewrite (column_order_ids (r :: rs) _ Hk). unfold ret at 1.
    rewrite (show_orders_run ORDER_COLUMNS (r :: rs) _ Hk).
    + rewrite showing_showing. reflexivity.
    + intros k Hin. apply rows_of_order_nonempty.
      apply group_keys_In. exact Hin.
Qed.

(* ================================================================== *)
(** * Grouping for display                                              *)
(* ================================================================== *)

Lemma displayed_orders_app a b :
  displayed_orders (a ++ b) = displayed_orders a ++ displayed_orders b.
Proof. unfold displayed_orders. apply flat_map_app. Qed.

Lemma displayed_tables_app a b :
  displayed_tables (a ++ b) = displayed_tables a ++ displayed_tables b.
Proof. unfold displayed_tables. apply flat_map_app. Qed.

Lemma order_page_orders k rs : displayed_orders (order_page k rs) = [k].
Proof.
  destruct rs as [|first rest]; [reflexivity|]. unfold order_page.
  destruct (falsy (strip (pystr (cell (lit "Reference By") first))));
    reflexivity.
Qed.

Lemma order_page_tables k rs :
  rs <> [] -> displayed_tables (order_page k rs) = [order_table rs].
Proof.
  destruct rs as [|first rest]; [contradiction|]. intros _.
  unfold order_page.
  destruct (falsy (strip (pystr (cell (lit "Reference By") first))));
    reflexivity.
Qed.

Lemma orders_page_orders rs :
  displayed_orders (orders_page rs) = group_keys (order_ids rs).
Proof.
  destruct rs as [|r rs]; [reflexivity|].
  unfold orders_page. generalize (group_keys (order_ids (r :: rs))) as keys.
  intros keys.
  change (displayed_orders
            (flat_map (fun k => order_page k (rows_of_order k (r :: rs)))
                      keys) = keys).
  induction keys as [|k keys IH]; [reflexivity|].
  cbn [flat_map]. rewrite displayed_orders_app, order_page_orders, IH.
  reflexivity.
Qed.

Lemma orders_page_tables rs :
  displayed_tables (orders_page rs)
  = List.map (fun k => order_table (rows_of_order k rs))
             (group_keys (order_ids rs)).
Proof.
  destruct rs as [|r rs]; [reflexivity|].
  unfold orders_page.
  assert (Hne : forall k, In k (group_keys (order_ids (r :: rs))) ->
                          rows_of_order k (r :: rs) <> []).
  { intros k Hk. apply rows_of_order_nonempty. apply group_keys_In.
    exact Hk. }
  revert Hne. generalize (group_keys (order_ids (r :: rs))) as keys.
  intros keys Hne.
  change (displayed_tables
            (flat_map (fun k => order_page k (rows_of_order k (r :: rs)))
                      keys)
          = List.map (fun k => order_table (rows_of_order k (r :: rs)))
                     keys).
  induction keys as [|k keys IH]; [reflexivity|].
  cbn [flat_map List.map].
  rewrite displayed_tables_app, order_page_tables, IH.
  - reflexivity.
  - intros k' Hk'. apply Hne. right; exact Hk'.
  - apply Hne. left; reflexivity.
Qed.

(** C5, as the code has it.  The My Orders tab shows the orders of the user
    in strictly ascending order of Order ID, the order in which [groupby]
    yields its groups, one heading per identifier; the table under each
    heading holds the rows with that identifier, in the order of the
    filtered sequence; and every row of the user has its identifier under
    exactly one heading. *)
Theorem orders_grouped_ascending inp s w :
  ledger_ok (cells w) -> fuse w = None ->
  fst (run MyOrders inp s w) = Ok tt
  /\ StronglySorted value_lt
       (displayed_orders (shown (snd (run MyOrders inp s w))))
  /\ displayed_tables (shown (snd (run MyOrders inp s w)))
     = List.map
         (fun k => order_table
                     (filter (has_key (lit "Order ID") k)
                        (user_rows (VStr (strip (user_phone s))) w)))
         (displayed_orders (shown (snd (run MyOrders inp s w))))
  /\ (forall r,
         In r (user_rows (VStr (strip (user_phone s))) w) ->
         exists k,
           In k (displayed_orders (shown (snd (run MyOrders inp s w))))
           /\ has_key (lit "Order ID") k r = true
           /\ forall k',
               In k' (displayed_orders
                        (shown (snd (run MyOrders inp s w)))) ->
               has_key (lit "Order ID") k' r = true -> k' = k).
Proof.
  intros Hok Hf. rewrite (my_orders_run inp s w Hok Hf).
  cbn [fst snd shown]. rewrite orders_page_orders, orders_page_tables.
  split; [reflexivity|]. split; [apply group_keys_sorted|].
  split; [reflexivity|].
  intros r Hr.
  pose proof (user_rows_keys (VStr (strip (user_phone s))) w Hok)
    as Hk.
  rewrite Forall_forall in Hk. specialize (Hk r Hr).
  destruct (dict_get_present (lit "Order ID") r) as [v Hv];
    [rewrite Hk; left; reflexivity|].
  exists v. split; [|split].
  - apply group_keys_In. unfold order_ids. apply in_flat_map.
    exists r. split; [exact Hr|]. rewrite Hv. left; reflexivity.
  - unfold has_key. rewrite Hv. apply value_eqb_eq. reflexivity.
  - intros k' _ Hk'. unfold has_key in Hk'. rewrite Hv in Hk'.
    apply value_eqb_eq in Hk'. symmetry; exact Hk'.
Qed.

Lemma orders_grouped_ascending_witness :
  StronglySorted value_lt
    (displayed_orders
       (shown (snd (run MyOrders
          (Examples.checkout_form "3f2b8c1d-0000-4000-8000-000000000000")
          Examples.two_item_session Examples.two_orders_world)))).
Proof.
  apply (orders_grouped_ascending
    (Examples.checkout_form "3f2b8c1d-0000-4000-8000-000000000000")
    Examples.two_item_session Examples.two_orders_world).
  - vm_compute. split; reflexivity.
  - vm_compute. reflexivity.
Defined.

(** C5, as stated, fails: after a checkout whose identifier starts with b
    and a later one whose identifier starts with a, both on a ledger that
    has its header, the tab shows the a order first, while the b order
    appears first among the rows. *)
Lemma groups_not_in_first_appearance_order :
  displayed_orders
    (shown (snd (run MyOrders
       (Examples.checkout_form "3f2b8c1d-0000-4000-8000-000000000000")
       Examples.two_item_session Examples.two_orders_world)))
  = [VStr (lit "a1a1a1a1"); VStr (lit "b2b2b2b2")]
  /\ first_appearance
       (order_ids
          (user_rows (VStr (strip (user_phone Examples.two_item_session)))
                     Examples.two_orders_world))
     = [VStr (lit "b2b2b2b2"); VStr (lit "a1a1a1a1")]
  /\ displayed_orders
       (shown (snd (run MyOrders
          (Examples.checkout_form "3f2b8c1d-0000-4000-8000-000000000000")
          Examples.two_item_session Examples.two_orders_world)))
     <> first_appearance
          (order_ids
             (user_rows
                (VStr (strip (user_phone Examples.two_item_session)))
                Examples.two_orders_world)).
Proof.
  split; [vm_compute; reflexivity|].
  split; [vm_compute; reflexivity|].
  vm_compute. discriminate.
Qed.

(* ================================================================== *)
(** * Remarks                                                           *)
(* ================================================================== *)

(** The catalog is listed by descending discount. *)
Remark catalog_by_descending_discount :
  StronglySorted (fun a b => discount (snd b) <= discount (snd a))
                 rakhi_catalog.
Proof.
  assert (H : forall l : dict product,
             (fix ok (l : dict product) : bool :=
                match l with
                | [] => true
                | a :: t =>
                    forallb (fun b => discount (snd b) <=? discount (snd a)) t
                    && ok t
                end) l = true ->
             StronglySorted (fun a b => discount (snd b) <= discount (snd a))
                            l).
  { induction l as [|a t IH]; intros E; constructor.
    - apply IH. apply andb_true_iff in E. apply E.
    - apply andb_true_iff in E. destruct E as [E _].
      rewrite forallb_forall in E. apply Forall_forall.
      intros b Hb. apply Z.leb_le. apply E; exact Hb. }
  apply H. vm_compute. reflexivity.
Qed.

(** The equality of C8 rests on the prices and discounts of the catalog:
    in binary64, 5 * (1 - 80/100) is just below 1. *)
Remark final_price_rounds_down :
  final_price {| title := []; price := 5; discount := 80; image := [] |}
  = Some 0
  /\ exact_price {| title := []; price := 5; discount := 80; image := [] |}
     = 1.
Proof. split; vm_compute; reflexivity. Qed.

(* ================================================================== *)
(** * Further properties of the ledger                                  *)
(* ================================================================== *)

Import Inv.

(** X1.  Whatever the API does, a save leaves the rows it found followed
    by a prefix of the rows of its argument, in order, and writes no other
    row; the prefix is all of them when the save returns, and a save that
    does not return has met a failure of the API.  The batch is not
    atomic, but no row lands without the ones before it and nothing is
    overwritten. *)
Theorem save_orders_partial order_rows w :
  (exists n,
      cells (snd (save_orders_to_sheet order_rows w))
      = cells w ++ firstn n (List.map dict_values order_rows))
  /\ (fst (save_orders_to_sheet order_rows w) = Ok tt ->
      cells (snd (save_orders_to_sheet order_rows w))
      = cells w ++ List.map dict_values order_rows)
  /\ (fst (save_orders_to_sheet order_rows w) <> Ok tt ->
      fst (save_orders_to_sheet order_rows w) = Raise APIError).
Proof.
  destruct (save_orders_to_sheet order_rows w) as [[[]|e] w'] eqn:E;
    cbn [fst snd].
  - apply save_orders_Ok in E.
    split; [|split; [intros _; exact E | intros H; contradiction]].
    exists (List.length (List.map dict_values order_rows)).
    rewrite firstn_all. exact E.
  - apply save_orders_Raise in E. destruct E as [-> E].
    split; [exact E|]. split; [discriminate | reflexivity].
Qed.

Lemma save_orders_partial_witness :
  (exists n,
      cells (snd (save_orders_to_sheet
                    (build_orders
                       (Examples.checkout_form
                          "3f2b8c1d-0000-4000-8000-000000000000")
                       Examples.two_item_session)
                    Examples.failing_later_world))
      = cells Examples.failing_later_world
        ++ firstn n
             (List.map dict_values
                (build_orders
                   (Examples.checkout_form
                      "3f2b8c1d-0000-4000-8000-000000000000")
                   Examples.two_item_session)))
  /\ List.length
       (cells (snd (save_orders_to_sheet
                      (build_orders
                         (Examples.checkout_form
                            "3f2b8c1d-0000-4000-8000-000000000000")
                         Examples.two_item_session)
                      Examples.failing_later_world))) = 1%nat.
Proof.
  split; [|vm_compute; reflexivity].
  exact (proj1 (save_orders_partial _ Examples.failing_later_world)).
Defined.

(** X2.  With a reliable API, saving one batch and then a second leaves
    the rows that saving the two batches as one leaves: the rows found,
    then the rows of the first batch, then those of the second. *)
Theorem save_orders_compose rows1 rows2 w :
  fuse w = None ->
  fst (save_orders_to_sheet rows1 w) = Ok tt
  /\ fst (save_orders_to_sheet rows2 (snd (save_orders_to_sheet rows1 w)))
     = Ok tt
  /\ cells (snd (save_orders_to_sheet rows2
                   (snd (save_orders_to_sheet rows1 w))))
     = cells (snd (save_orders_to_sheet (rows1 ++ rows2) w))
  /\ cells (snd (save_orders_to_sheet rows2
                   (snd (save_orders_to_sheet rows1 w))))
     = cells w ++ List.map dict_values rows1 ++ List.map dict_values rows2.
Proof.
  intros Hf.
  rewrite (save_orders_reliable rows1 w Hf). cbn [fst snd].
  rewrite save_orders_reliable by reflexivity.
  rewrite (save_orders_reliable (rows1 ++ rows2) w Hf).
  cbn [fst snd cells sheet_rows].
  split; [reflexivity|]. split; [reflexivity|].
  rewrite map_app, app_assoc. split; reflexivity.
Qed.

Lemma save_orders_compose_witness :
  cells (snd (save_orders_to_sheet
                [[(lit "Order ID", VStr (lit "b"))]]
                (snd (save_orders_to_sheet
                        [[(lit "Order ID", VStr (lit "a"))]]
                        Examples.empty_world))))
  = cells Examples.empty_world
    ++ List.map dict_values [[(lit "Order ID", VStr (lit "a"))]]
    ++ List.map dict_values [[(lit "Order ID", VStr (lit "b"))]].
Proof.
  apply (save_orders_compose
           [[(lit "Order ID", VStr (lit "a"))]]
           [[(lit "Order ID", VStr (lit "b"))]]
           Examples.empty_world eq_refl).
Defined.

(* ================================================================== *)
(** * What a run leaves alone                                           *)
(* ================================================================== *)

Lemma inert_ret {S A} (a : A) : inert (@ret S A a).
Proof. intros s; reflexivity. Qed.

Lemma inert_raise {S A} e : inert (@raise S A e).
Proof. intros s; reflexivity. Qed.

Lemma inert_bind {S A B} (m : M S A) (k : A -> M S B) :
  inert m -> (forall a, inert (k a)) -> inert (bind m k).
Proof.
  intros Hm Hk s. unfold bind. specialize (Hm s).
  destruct (m s) as [[a|e] s1]; cbn [snd] in *; subst s1;
    [apply Hk | reflexivity].
Qed.

Lemma inert_map_M {S A B} (f : A -> M S B) (l : list A) :
  (forall a, inert (f a)) -> inert (map_M f l).
Proof.
  intros Hf. induction l as [|x l IH]; cbn [map_M]; [apply inert_ret|].
  apply inert_bind; [apply Hf | intros y].
  apply inert_bind; [exact IH | intros ys; apply inert_ret].
Qed.

Lemma inert_getitem {S} (r : dict value) c : inert (@getitem S r c).
Proof.
  unfold getitem. destruct (dict_get c r); [apply inert_ret|apply inert_raise].
Qed.

Lemma inert_column {S} df c : inert (@column S df c).
Proof.
  unfold column. destruct (has_column df c); [|apply inert_raise].
  apply inert_map_M. intros r. apply inert_getitem.
Qed.

Lemma inert_iloc0 {S} df : inert (@iloc0 S df).
Proof.
  unfold iloc0. destruct (rows df); [apply inert_raise | apply inert_ret].
Qed.

Lemma inert_select_columns {S} df cs : inert (@select_columns S df cs).
Proof.
  unfold select_columns. apply inert_bind; [|intros rs; apply inert_ret].
  apply inert_map_M. intros r. apply inert_map_M. intros c.
  apply inert_bind; [apply inert_getitem | intros v; apply inert_ret].
Qed.

Lemma inert_groupby {S} df c : inert (@groupby S df c).
Proof.
  unfold groupby. apply inert_bind; [apply inert_column|].
  intros ks. apply inert_ret.
Qed.

Lemma inert_nunique {S} df c : inert (@nunique S df c).
Proof.
  unfold nunique. apply inert_bind; [apply inert_column|].
  intros ks. apply inert_ret.
Qed.

Lemma reads_inert {A} (m : M World A) : inert m -> reads m.
Proof. intros H w. rewrite (H w). apply same_or_created_refl. Qed.

Lemma reads_api_call : reads api_call.
Proof. intros [g [[|n]|] f]; left; reflexivity. Qed.

Lemma reads_get_worksheet client : reads (_get_worksheet client).
Proof. intros w. apply (proj1 (get_worksheet_cases client w)). Qed.

Lemma reads_bind {A B} (m : M World A) (k : A -> M World B) :
  reads m -> (forall a, reads (k a)) -> reads (bind m k).
Proof.
  intros Hm Hk w. unfold bind. specialize (Hm w).
  destruct (m w) as [[a|e] w1]; cbn [snd] in *; [|exact Hm].
  apply (same_or_created_trans w w1); [exact Hm | apply Hk].
Qed.

(** The query writes no row, whatever the ledger holds and whatever the
    API does. *)
Lemma reads_get_user_orders p : reads (get_user_orders p).
Proof.
  unfold get_user_orders, _get_gspread_client, get_all_records.
  apply reads_bind; [apply reads_api_call | intros client].
  apply reads_bind; [apply reads_get_worksheet | intros sheet].
  apply reads_bind.
  { apply reads_bind; [apply reads_api_call | intros _].
    apply reads_inert. apply inert_bind; [intros w; reflexivity|].
    intros w. apply inert_ret. }
  intros data. apply reads_inert. destruct data as [|r rs].
  - apply inert_ret.
  - cbv zeta. apply inert_bind; [apply inert_column|].
    intros phones. apply inert_ret.
Qed.

Lemma quiet_inert {A} (m : M State A) : inert m -> quiet m.
Proof.
  intros H st. rewrite (H st).
  split; [reflexivity | apply same_or_created_refl].
Qed.

Lemma quiet_show u : quiet (show u).
Proof. intros st. split; [reflexivity | apply same_or_created_refl]. Qed.

Lemma quiet_on_world {A} (m : M World A) : reads m -> quiet (on_world m).
Proof.
  intros H st. unfold on_world, zoom. specialize (H (world st)).
  destruct (m (world st)) as [r w']. cbn [snd session world] in *.
  split; [reflexivity | exact H].
Qed.

Lemma quiet_bind {A B} (m : M State A) (k : A -> M State B) :
  quiet m -> (forall a, quiet (k a)) -> quiet (bind m k).
Proof.
  intros Hm Hk st. unfold bind. specialize (Hm st).
  destruct (m st) as [[a|e] st1]; cbn [snd] in *; [|exact Hm].
  destruct (Hk a st1) as [H1 H2]. destruct Hm as [H3 H4].
  split; [congruence|].
  apply (same_or_created_trans _ (world st1)); assumption.
Qed.

Lemma quiet_for_each {A} (l : list A) (body : A -> M State unit) :
  (forall a, quiet (body a)) -> quiet (for_each l body).
Proof.
  intros Hb. induction l as [|x l IH]; cbn [for_each].
  - apply quiet_inert, inert_ret.
  - apply quiet_bind; [apply Hb | intros _; exact IH].
Qed.

Lemma quiet_show_order entry : quiet (show_order entry).
Proof.
  destruct entry as [oid group]. unfold show_order.
  apply quiet_bind; [apply quiet_show | intros _].
  apply quiet_bind; [apply quiet_inert, inert_iloc0 | intros first].
  apply quiet_bind; [apply quiet_inert, inert_getitem | intros n].
  apply quiet_bind; [apply quiet_inert, inert_getitem | intros p].
  apply quiet_bind; [apply quiet_inert, inert_getitem | intros a].
  apply quiet_bind; [apply quiet_show | intros _].
  apply quiet_bind.
  { destruct (falsy _); [apply quiet_inert, inert_ret|].
    apply quiet_bind; [apply quiet_inert, inert_getitem | intros r'].
    apply quiet_show. }
  intros _.
  apply quiet_bind; [apply quiet_inert, inert_select_columns | intros t].
  apply quiet_show.
Qed.

Lemma quiet_my_orders_tab : quiet my_orders_tab.
Proof.
  unfold my_orders_tab.
  apply quiet_bind; [apply quiet_inert; intros st; reflexivity | intros st].
  apply quiet_bind;
    [apply quiet_on_world, reads_get_user_orders | intros df].
  destruct (empty df); [apply quiet_show|].
  apply quiet_bind; [apply quiet_inert, inert_nunique | intros n].
  apply quiet_bind; [apply quiet_show | intros _].
  apply quiet_bind; [apply quiet_inert, inert_groupby | intros grouped].
  apply quiet_for_each. intros entry. apply quiet_show_order.
Qed.

(** X3.  The ledger is append-only and keeps its format: after any run of
    either tab, whatever the inputs and whatever the API does, the rows of
    the worksheet are the rows before the run followed by zero or more
    rows, and a ledger that had its header over rows of at most eleven
    cells still has. *)
Theorem ledger_append_only selected_tab inp s w :
  exists added,
    cells (world (snd (run selected_tab inp s w))) = cells w ++ added
    /\ (ledger_headed (cells w) -> ledger_headed (cells w ++ added)).
Proof.
  destruct selected_tab.
  - rewrite shop_tab_run. unfold shop_outcome. cbn [cart user_phone].
    set (s1 := {| user_phone := user_phone s;
                  cart := cart_after_grid inp rakhi_catalog (cart s) |}).
    assert (Same : forall r page,
      exists added,
        cells (world (snd (r : result unit,
                           {| session := s1; world := w;
                              shown := page |}))) = cells w ++ added
        /\ (ledger_headed (cells w) -> ledger_headed (cells w ++ added))).
    { intros r page. exists []. cbn [snd world]. rewrite app_nil_r.
      split; [reflexivity | auto]. }
    destruct (cart_after_grid inp rakhi_catalog (cart s)) as [|e c] eqn:Ec;
      [apply Same|].
    destruct (submit inp); [|apply Same].
    destruct (falsy (name inp) || falsy (address inp) || falsy (pincode inp));
      [apply Same|].
    pose proof (build_orders_keys inp s1) as Hk.
    destruct (save_orders_to_sheet (build_orders inp s1) w)
      as [[u|e'] w'] eqn:E; cbn [snd world].
    + apply save_orders_Ok in E.
      exists (List.map dict_values (build_orders inp s1)).
      split; [exact E|]. intros Hok.
      apply save_keeps_ledger_headed; assumption.
    + apply save_orders_Raise in E. destruct E as [_ [n E]].
      exists (firstn n (List.map dict_values (build_orders inp s1))).
      split; [exact E|]. intros Hok.
      apply ledger_headed_app; [exact Hok|].
      apply written_rows_short. exact Hk.
  - exists []. rewrite app_nil_r. split; [|auto].
    apply same_or_created_cells.
    apply (quiet_my_orders_tab {| session := s; world := w; shown := [] |}).
Qed.

Lemma ledger_append_only_witness :
  exists added,
    cells (world (snd (run Shop
       (Examples.checkout_form "3f2b8c1d-0000-4000-8000-000000000000")
       Examples.two_item_session Examples.headed_world)))
    = cells Examples.headed_world ++ added
    /\ ledger_headed (cells Examples.headed_world ++ added)
    /\ List.length added = 2%nat.
Proof.
  destruct (ledger_append_only Shop
    (Examples.checkout_form "3f2b8c1d-0000-4000-8000-000000000000")
    Examples.two_item_session Examples.headed_world)
    as (added & H1 & H2).
  exists added. split; [exact H1|]. split.
  - apply H2. split; [discriminate | split; reflexivity].
  - assert (E : List.length
                  (cells (world (snd (run Shop
                     (Examples.checkout_form
                        "3f2b8c1d-0000-4000-8000-000000000000")
                     Examples.two_item_session Examples.headed_world))))
                = 3%nat) by (vm_compute; reflexivity).
    rewrite H1, length_app in E.
    change (List.length (cells Examples.headed_world)) with 1%nat in E.
    lia.
Defined.

(** X4.  The My Orders tab writes no row and leaves the session alone:
    whatever the ledger holds and whatever the API does, also when the run
    ends with an exception, the session (phone and cart) and the rows of
    the worksheet are the ones the run started with.  The one change the
    run can make to the spreadsheet is to create the worksheet, without
    rows, when it is missing. *)
Theorem my_orders_read_only inp s w :
  session (snd (run MyOrders inp s w)) = s
  /\ cells (world (snd (run MyOrders inp s w))) = cells w
  /\ (sheet_rows (world (snd (run MyOrders inp s w))) = sheet_rows w
      \/ (sheet_rows w = None
          /\ sheet_rows (world (snd (run MyOrders inp s w))) = Some [])).
Proof.
  unfold run, script.
  destruct (quiet_my_orders_tab {| session := s; world := w; shown := [] |})
    as [H1 H2].
  split; [exact H1|]. split; [|exact H2].
  apply same_or_created_cells in H2. exact H2.
Qed.

Lemma my_orders_read_only_witness :
  sheet_rows Examples.missing_world = None
  /\ sheet_rows
       (world (snd (run MyOrders (Examples.press_add "x" 1)
                      Examples.two_item_session Examples.missing_world)))
     = Some [].
Proof.
  split; [reflexivity|].
  destruct (proj2 (proj2 (my_orders_read_only (Examples.press_add "x" 1)
                            Examples.two_item_session
                            Examples.missing_world)))
    as [H | [_ H]]; [|exact H].
  vm_compute in H. discriminate H.
Defined.

(* ================================================================== *)
(** * The cart between runs                                             *)
(* ================================================================== *)

Lemma dict_get_In {V} (k : str) (v : V) (d : dict V) :
  dict_get k d = Some v -> In (k, v) d.
Proof.
  induction d as [|[k' v'] d IH]; simpl; [discriminate|].
  destruct (str_eqb k k') eqn:E.
  - apply str_eqb_eq in E. subst k'. intros H; inversion H. left; reflexivity.
  - intros H. right. apply IH; exact H.
Qed.

Lemma dict_get_None_fresh {V} (k : str) (d : dict V) :
  dict_get k d = None -> ~ In k (dict_keys d).
Proof.
  intros H Hin. destruct (dict_get_present k d Hin) as [v Hv]. congruence.
Qed.

Lemma dict_set_In {V} (k key : str) (v v0 : V) (d : dict V) :
  In (k, v0) (dict_set key v d) -> In (k, v0) d \/ (k = key /\ v0 = v).
Proof.
  induction d as [|[k' v'] d IH]; simpl.
  - intros [H | []]. inversion H. right; auto.
  - destruct (str_eqb key k') eqn:E; simpl.
    + apply str_eqb_eq in E. subst k'. intros [H | H].
      * inversion H. right; auto.
      * left; right; exact H.
    + intros [H | H]; [left; left; exact H|].
      destruct (IH H) as [H' | H']; [left; right; exact H' | right; exact H'].
Qed.

(** X5.  Looking up a cart after Add to Cart: the line of the product
    added holds the sum of the quantities and, when the product was
    already there, the title and the price it had, whatever the catalog
    says now; every other line is as it was; and the keys keep their
    order, a new product going last. *)
Theorem add_to_cart_lookup key item fp q c :
  dict_get key (add_to_cart key item fp q c)
  = Some (match dict_get key c with
          | Some details =>
              {| line_title := line_title details;
                 line_price := line_price details;
                 quantity := quantity details + q |}
          | None =>
              {| line_title := title item; line_price := fp;
                 quantity := q |}
          end)
  /\ (forall k, k <> key ->
                dict_get k (add_to_cart key item fp q c) = dict_get k c)
  /\ dict_keys (add_to_cart key item fp q c)
     = (if dict_mem key c then dict_keys c else dict_keys c ++ [key]).
Proof.
  unfold add_to_cart, dict_mem.
  destruct (dict_get key c) as [details|] eqn:E.
  - split; [apply dict_get_set_same|]. split.
    + intros k Hk. apply dict_get_set_other; exact Hk.
    + apply dict_set_keys. eauto.
  - split; [apply dict_get_set_same|]. split.
    + intros k Hk. apply dict_get_set_other; exact Hk.
    + rewrite dict_set_fresh by (apply dict_get_None_fresh; exact E).
      unfold dict_keys. rewrite map_app. reflexivity.
Qed.

Lemma add_to_cart_lookup_witness :
  dict_get (lit "IMG_20250707_222103")
    (add_to_cart (lit "IMG_20250707_221915")
       {| title := lit "Renamed"; price := 500; discount := 0;
          image := [] |} 500 3 (cart Examples.two_item_session))
  = dict_get (lit "IMG_20250707_222103") (cart Examples.two_item_session).
Proof.
  apply (proj1 (proj2 (add_to_cart_lookup (lit "IMG_20250707_221915")
    {| title := lit "Renamed"; price := 500; discount := 0; image := [] |}
    500 3 (cart Examples.two_item_session)))).
  vm_compute. discriminate.
Defined.

Lemma cart_ok_nil : cart_ok [].
Proof. split; [constructor | intros k l []]. Qed.

Lemma add_to_cart_ok key item fp q c :
  In (key, item) rakhi_catalog -> final_price item = Some fp -> 1 <= q ->
  cart_ok c -> cart_ok (add_to_cart key item fp q c).
Proof.
  intros Hin Hfp Hq [Hnd Hl]. unfold add_to_cart.
  destruct (dict_get key c) as [details|] eqn:E.
  - split.
    + rewrite dict_set_keys by eauto. exact Hnd.
    + intros k l H. apply dict_set_In in H. destruct H as [H | [-> ->]].
      * apply Hl; exact H.
      * destruct (Hl key details (dict_get_In _ _ _ E))
          as (item0 & H1 & H2 & H3 & H4).
        exists item0. cbn [line_title line_price quantity].
        repeat split; try assumption. lia.
  - pose proof (dict_get_None_fresh _ _ E) as Hfresh.
    rewrite dict_set_fresh by exact Hfresh. split.
    + unfold dict_keys. rewrite map_app. cbn [List.map fst].
      apply Permutation_NoDup with (l := key :: List.map fst c).
      * apply Permutation_cons_append.
      * constructor; assumption.
    + intros k l H. apply in_app_or in H. destruct H as [H | [H | []]].
      * apply Hl; exact H.
      * inversion H; subst k l. exists item.
        cbn [line_title line_price quantity]. auto.
Qed.

Lemma cart_after_grid_ok inp c :
  qty_in_range inp -> cart_ok c ->
  cart_ok (cart_after_grid inp rakhi_catalog c).
Proof.
  intros Hq Hc. destruct (clicked_add inp) as [key|] eqn:Ek.
  - destruct (in_dec (list_eq_dec N.eq_dec) key (dict_keys rakhi_catalog))
      as [Hin | Hout].
    + unfold dict_keys in Hin. apply in_map_iff in Hin.
      destruct Hin as ([k item] & Hk & Hin). cbn [fst] in Hk. subst k.
      destruct (final_price item) as [fp|] eqn:Hfp.
      * rewrite (cart_after_grid_click inp key item fp rakhi_catalog Ek Hfp
                   catalog_keys_distinct Hin).
        apply add_to_cart_ok; try assumption. apply Hq.
      * exfalso. pose proof catalog_priced as Hp.
        rewrite Forall_forall in Hp. apply (Hp (key, item) Hin). exact Hfp.
    + rewrite (cart_after_grid_miss inp key rakhi_catalog Ek Hout).
      exact Hc.
  - rewrite (cart_after_grid_idle inp rakhi_catalog Ek). exact Hc.
Qed.

(** X6.  The cart keeps its shape from run to run.  When every quantity
    box holds a value from 1 to 10, a run of the Shop tab turns a cart
    with one line per product key, each line carrying the title and the
    discounted price of its catalog product and a quantity of at least
    one, into such a cart; and it never changes the phone of the
    session. *)
Theorem cart_stays_ok inp s w :
  qty_in_range inp -> cart_ok (cart s) ->
  cart_ok (cart (session (snd (run Shop inp s w))))
  /\ user_phone (session (snd (run Shop inp s w))) = user_phone s.
Proof.
  intros Hq Hc. rewrite shop_tab_run. unfold shop_outcome.
  cbn [cart user_phone].
  pose proof (cart_after_grid_ok inp (cart s) Hq Hc) as H1.
  destruct (cart_after_grid inp rakhi_catalog (cart s)) as [|e c] eqn:Ec.
  - cbn [snd session cart user_phone]. split; [exact H1 | reflexivity].
  - destruct (submit inp); [|cbn; split; [exact H1 | reflexivity]].
    destruct (falsy (name inp) || falsy (address inp) || falsy (pincode inp));
      [cbn; split; [exact H1 | reflexivity]|].
    destruct (save_orders_to_sheet _ w) as [[u|e'] w'];
      cbn [snd session cart user_phone].
    + split; [apply cart_ok_nil | reflexivity].
    + split; [exact H1 | reflexivity].
Qed.

Lemma cart_stays_ok_witness :
  cart_ok (cart (session (snd (run Shop
     (Examples.press_add "IMG_20250729_114338_1" 2)
     Examples.empty_session Examples.empty_world)))).
Proof.
  apply (cart_stays_ok (Examples.press_add "IMG_20250729_114338_1" 2)
           Examples.empty_session Examples.empty_world).
  - intros k. cbn. lia.
  - split; [constructor | intros k l []].
Defined.

(* ================================================================== *)
(** * What the My Orders tab shows                                      *)
(* ================================================================== *)

Lemma list_sum_map_add {A} (f g : A -> nat) (l : list A) :
  list_sum (List.map (fun x => (f x + g x)%nat) l)
  = (list_sum (List.map f l) + list_sum (List.map g l))%nat.
Proof.
  induction l as [|x l IH]; simpl; [reflexivity|]. rewrite IH. lia.
Qed.

Lemma indicator_sum (v : value) (keys : list value) :
  NoDup keys -> In v keys ->
  list_sum (List.map (fun k => if value_eqb v k then 1%nat else 0%nat) keys)
  = 1%nat.
Proof.
  induction 1 as [|k keys Hk Hnd IH]; intros Hin; [destruct Hin|].
  simpl. destruct (value_eqb v k) eqn:E.
  - apply value_eqb_eq in E. subst k.
    assert (Z0 : list_sum (List.map (fun k => if value_eqb v k
                                              then 1%nat else 0%nat) keys)
                 = 0%nat).
    { clear IH Hin Hnd. induction keys as [|k' keys IH']; [reflexivity|].
      simpl. destruct (value_eqb v k') eqn:E'.
      - apply value_eqb_eq in E'. subst k'. exfalso. apply Hk.
        left; reflexivity.
      - apply IH'. intros H. apply Hk. right; exact H. }
    rewrite Z0. reflexivity.
  - destruct Hin as [Hin | Hin].
    + subst k. assert (T : value_eqb v v = true)
        by (apply value_eqb_eq; reflexivity). congruence.
    + rewrite (IH Hin). reflexivity.
Qed.

(** Grouping loses no row and repeats none. *)
Lemma groups_count (keys : list value) (rs : list (dict value)) :
  NoDup keys ->
  (forall r, In r rs ->
             exists v, dict_get (lit "Order ID") r = Some v /\ In v keys) ->
  list_sum (List.map (fun k => List.length (rows_of_order k rs)) keys)
  = List.length rs.
Proof.
  intros Hnd. induction rs as [|r rs IH]; intros Hcov.
  - clear. induction keys as [|k keys IHk]; [reflexivity | exact IHk].
  - destruct (Hcov r (or_introl eq_refl)) as (v & Hv & Hin).
    assert (E : forall k,
              List.length (rows_of_order k (r :: rs))
              = ((if value_eqb v k then 1 else 0)
                 + List.length (rows_of_order k rs))%nat).
    { intros k. unfold rows_of_order. cbn [filter].
      unfold has_key at 1. rewrite Hv.
      destruct (value_eqb v k); reflexivity. }
    rewrite (map_ext _ _ E), list_sum_map_add.
    rewrite (indicator_sum v keys Hnd Hin).
    rewrite IH by (intros r' Hr'; apply Hcov; right; exact Hr').
    reflexivity.
Qed.

Lemma order_page_no_summary k rs n m :
  ~ In (OrdersSummary n m) (order_page k rs).
Proof.
  destruct rs as [|first rest]; cbn.
  - intros [H | []]; discriminate.
  - destruct (falsy _); cbn; intros H;
      repeat (destruct H as [H | H]; [discriminate|]); exact H.
Qed.

(** X7.  The summary line of the My Orders tab tells the truth: the number
    of orders it gives is the number of order headings on the page, the
    number of items is the number of rows of the user, and the tables
    under the headings hold that many rows in all: grouping shows every
    row once. *)
Theorem my_orders_counts inp s w n m :
  ledger_ok (cells w) -> fuse w = None ->
  In (OrdersSummary n m) (shown (snd (run MyOrders inp s w))) ->
  n = List.length (displayed_orders (shown (snd (run MyOrders inp s w))))
  /\ m = List.length (user_rows (VStr (strip (user_phone s))) w)
  /\ table_rows (shown (snd (run MyOrders inp s w))) = m.
Proof.
  intros Hok Hf. unfold table_rows.
  rewrite (my_orders_run inp s w Hok Hf). cbn [snd shown].
  rewrite orders_page_orders, orders_page_tables.
  pose proof (user_rows_keys (VStr (strip (user_phone s))) w Hok)
    as Hk.
  destruct (user_rows (VStr (strip (user_phone s))) w)
    as [|r rs] eqn:E.
  { intros [H | []]; discriminate. }
  unfold orders_page. intros [H | H].
  - inversion H; subst n m. split; [reflexivity|]. split; [reflexivity|].
    rewrite map_map.
    rewrite (map_ext _ (fun k => List.length (rows_of_order k (r :: rs)))).
    + apply groups_count; [apply sorted_NoDup, group_keys_sorted|].
      intros r' Hr'. rewrite Forall_forall in Hk.
      destruct (dict_get_present (lit "Order ID") r') as [v Hv];
        [rewrite (Hk r' Hr'); left; reflexivity|].
      exists v. split; [exact Hv|]. apply group_keys_In.
      unfold order_ids. apply in_flat_map. exists r'.
      split; [exact Hr'|]. rewrite Hv. left; reflexivity.
    + intros k. unfold order_table. cbn [rows]. apply length_map.
  - exfalso. apply in_flat_map in H. destruct H as (k & _ & H).
    apply (order_page_no_summary _ _ _ _ H).
Qed.

Lemma my_orders_counts_witness :
  table_rows (shown (snd (run MyOrders
     (Examples.checkout_form "3f2b8c1d-0000-4000-8000-000000000000")
     Examples.two_item_session Examples.two_orders_world))) = 4%nat.
Proof.
  apply (my_orders_counts
    (Examples.checkout_form "3f2b8c1d-0000-4000-8000-000000000000")
    Examples.two_item_session Examples.two_orders_world 2%nat 4%nat).
  - vm_compute. split; reflexivity.
  - vm_compute. reflexivity.
  - vm_compute. left. reflexivity.
Defined.




(** X9.  A failure of the API while the My Orders tab reads the ledger is
    not shown as an empty order list: when one of the three calls of the
    query fails, the run ends with [APIError] and the page shows nothing,
    in particular not the notice that no orders were found. *)
Theorem my_orders_read_failure inp s g n retype :
  (n < 3)%nat ->
  run MyOrders inp s
    {| sheet_rows := g; fuse := Some n; numericise := retype |}
  = (Raise APIError,
     {| session := s;
        world := {| sheet_rows := g; fuse := None; numericise := retype |};
        shown := [] |}).
Proof.
  intros Hn.
  destruct n as [|[|[|n]]]; [reflexivity | destruct g; reflexivity
                            | destruct g; reflexivity | lia].
Qed.

Lemma my_orders_read_failure_witness :
  run MyOrders
    (Examples.checkout_form "3f2b8c1d-0000-4000-8000-000000000000")
    Examples.two_item_session
    {| sheet_rows := Some []; fuse := Some 2%nat;
       numericise := Examples.numericise_int |}
  = (Raise APIError,
     {| session := Examples.two_item_session;
        world := {| sheet_rows := Some []; fuse := None;
                    numericise := Examples.numericise_int |};
        shown := [] |}).
Proof.
  apply (my_orders_read_failure _ _ (Some []) 2%nat). lia.
Defined.





(* ================================================================== *)
(** * Configuration, login and logout                                   *)
(* ================================================================== *)

Import Main.

(** Where SHEET_ID has a value the secrets could be read. *)
Lemma sheet_id_set cfg :
  unset (SHEET_ID cfg) = false -> exists table, secrets cfg = Some table.
Proof.
  unfold SHEET_ID, setting. destruct (secrets cfg) as [table|];
    [eauto | discriminate].
Qed.

(** X11.  Where there is no secrets file the run ends with the exception
    of [st.secrets] at the first setting: nothing is shown, and the
    session and the ledger are untouched.  Otherwise the script stops at
    the SHEET_ID error, before the login form and without touching the
    session or the ledger, exactly when the secrets hold an empty
    SHEET_ID, or hold none and the environment holds none or an empty
    one.  An empty secret stops the script even when the environment names
    a sheet: the secret wins. *)
Theorem missing_sheet_id_stops cfg wd ss w :
  (secrets cfg = None ->
   main cfg wd ss w
   = {| ending_of := Failed SecretNotFound; state_of := ss; world_of := w;
        page_of := [] |})
  /\ (main cfg wd ss w
      = {| ending_of := Stopped; state_of := ss; world_of := w;
           page_of := [SheetIdMissing] |}
      <-> In SheetIdMissing (page_of (main cfg wd ss w)))
  /\ (In SheetIdMissing (page_of (main cfg wd ss w))
      <-> match secrets cfg with
          | None => False
          | Some table =>
              match dict_get (lit "SHEET_ID") table with
              | Some (Text s) => s = []
              | Some (Table t) => t = []
              | None =>
                  match dict_get (lit "SHEET_ID") (environ cfg) with
                  | Some s => s = []
                  | None => True
                  end
              end
          end).
Proof.
  split; [intros Hs; unfold main; rewrite Hs; reflexivity|].
  destruct (secrets cfg) as [table|] eqn:Hsec.
  2:{ unfold main. rewrite Hsec. cbn [page_of]. split.
      - split; [discriminate | intros []].
      - split; intros []. }
  assert (Hno : unset (SHEET_ID cfg) = false ->
                ~ In SheetIdMissing (page_of (main cfg wd ss w))).
  { intros Hu. unfold main. rewrite Hsec, Hu.
    destruct (user_phone_key ss) as [phone|].
    - destruct (logout wd); [intros [H | []]; discriminate|].
      destruct (run _ _ _ w) as [r st]. cbn [page_of].
      intros [H | H]; [discriminate|].
      apply in_map_iff in H. destruct H as (u & H & _). discriminate.
    - destruct (login_submit wd); [destruct (falsy (phone_box wd))|];
        cbn [page_of]; intros H;
        repeat (destruct H as [H | H]; [discriminate|]); exact H. }
  assert (Hyes : unset (SHEET_ID cfg) = true ->
                 main cfg wd ss w
                 = {| ending_of := Stopped; state_of := ss; world_of := w;
                      page_of := [SheetIdMissing] |}).
  { intros Hu. unfold main. rewrite Hsec, Hu. reflexivity. }
  assert (Hset : unset (SHEET_ID cfg) = true
                 <-> match dict_get (lit "SHEET_ID") table with
                     | Some (Text s) => s = []
                     | Some (Table t) => t = []
                     | None =>
                         match dict_get (lit "SHEET_ID") (environ cfg) with
                         | Some s => s = []
                         | None => True
                         end
                     end).
  { unfold SHEET_ID, setting. rewrite Hsec.
    destruct (dict_get (lit "SHEET_ID") table) as [[s|t]|].
    - cbn [unset]. apply falsy_true.
    - destruct t; cbn [unset]; split; (reflexivity || discriminate).
    - destruct (dict_get (lit "SHEET_ID") (environ cfg)) as [s|];
        cbn [unset option_map]; [apply falsy_true | tauto]. }
  destruct (unset (SHEET_ID cfg)) eqn:Hu.
  - rewrite (Hyes eq_refl). cbn [page_of]. split.
    + split; [intros _; left; reflexivity | reflexivity].
    + rewrite <- Hset. split; [reflexivity | intros _; left; reflexivity].
  - specialize (Hno eq_refl). split.
    + split; [intros H; rewrite H in Hno; exfalso; apply Hno; left;
              reflexivity | intros H; contradiction].
    + rewrite <- Hset. split; [intros H; contradiction | discriminate].
Qed.

Lemma missing_sheet_id_stops_witness :
  main {| secrets := None; environ := [(lit "SHEET_ID", lit "1AbC")] |}
    {| phone_box := lit "9876543210"; login_submit := true;
       logout := false; selected_tab := Shop;
       tab_inputs := Examples.press_add "x" 1 |}
    {| user_phone_key := None; cart_key := None |}
    Examples.empty_world
  = {| ending_of := Failed SecretNotFound;
       state_of := {| user_phone_key := None; cart_key := None |};
       world_of := Examples.empty_world; page_of := [] |}.
Proof.
  apply (proj1 (missing_sheet_id_stops _ _ _ _)). reflexivity.
Defined.

(** X12.  Logging in.  A submitted login with no text warns and leaves the
    user logged out.  With any text at all the phone stored is the text
    stripped of surrounding whitespace, itself unchanged by stripping, and
    the script asks for a rerun; text that is only whitespace is accepted
    and logs the user in under the empty phone. *)
Theorem login_outcome cfg wd ss w :
  unset (SHEET_ID cfg) = false ->
  user_phone_key ss = None -> login_submit wd = true ->
  (phone_box wd = [] ->
   main cfg wd ss w
   = {| ending_of := Stopped; state_of := ss; world_of := w;
        page_of := [LoginForm; EnterValidPhone] |})
  /\ (phone_box wd <> [] ->
      main cfg wd ss w
      = {| ending_of := Rerun;
           state_of := {| user_phone_key := Some (strip (phone_box wd));
                          cart_key := cart_key ss |};
           world_of := w; page_of := [LoginForm] |}
      /\ strip (strip (phone_box wd)) = strip (phone_box wd)
      /\ (blank (phone_box wd) ->
          user_phone_key (state_of (main cfg wd ss w)) = Some [])).
Proof.
  intros Hu Hp Hs. destruct (sheet_id_set cfg Hu) as [table Ht].
  unfold main. rewrite Ht, Hu, Hp, Hs. split.
  - intros ->. reflexivity.
  - intros Hne. rewrite (falsy_false _ Hne).
    split; [reflexivity|]. split; [apply strip_idem|].
    intros Hb. cbn [state_of user_phone_key]. unfold blank in Hb.
    rewrite Hb. reflexivity.
Qed.

Lemma login_outcome_witness :
  user_phone_key
    (state_of (main {| secrets := Some [(lit "SHEET_ID", Text (lit "1AbC"))];
                       environ := [] |}
                 {| phone_box := lit "  "; login_submit := true;
                    logout := false; selected_tab := Shop;
                    tab_inputs := Examples.press_add "x" 1 |}
                 {| user_phone_key := None; cart_key := None |}
                 Examples.empty_world))
  = Some [].
Proof.
  apply (proj2 (login_outcome
    {| secrets := Some [(lit "SHEET_ID", Text (lit "1AbC"))]; environ := [] |}
    {| phone_box := lit "  "; login_submit := true; logout := false;
       selected_tab := Shop; tab_inputs := Examples.press_add "x" 1 |}
    {| user_phone_key := None; cart_key := None |}
    Examples.empty_world eq_refl eq_refl eq_refl)).
  - vm_compute. discriminate.
  - vm_compute. reflexivity.
Defined.

(** X13.  Until the user is logged in nothing behind the login form runs:
    whatever the widgets hold, a checkout form submitted or an Add to Cart
    pressed, the ledger and the cart are untouched, no call is made, and
    the page shows no element of either tab. *)
Theorem logged_out_run_is_inert cfg wd ss w :
  user_phone_key ss = None ->
  world_of (main cfg wd ss w) = w
  /\ cart_key (state_of (main cfg wd ss w)) = cart_key ss
  /\ (forall u, ~ In (OnTab u) (page_of (main cfg wd ss w)))
  /\ ending_of (main cfg wd ss w) <> Completed.
Proof.
  intros Hp. unfold main. rewrite Hp.
  destruct (secrets cfg) as [table|];
    [destruct (unset (SHEET_ID cfg)); [|destruct (login_submit wd);
       [destruct (falsy (phone_box wd))|]]|];
    cbn [world_of state_of cart_key page_of ending_of];
    (split; [reflexivity|]; split; [reflexivity|]; split;
     [intros u H; repeat (destruct H as [H | H]; [discriminate|]); exact H
     | discriminate]).
Qed.

Lemma logged_out_run_is_inert_witness :
  world_of (main {| secrets := Some [(lit "SHEET_ID", Text (lit "1AbC"))];
                    environ := [] |}
              {| phone_box := []; login_submit := false; logout := false;
                 selected_tab := Shop;
                 tab_inputs := Examples.checkout_form "3f2b8c1d" |}
              {| user_phone_key := None;
                 cart_key := Some (cart Examples.two_item_session) |}
              Examples.empty_world)
  = Examples.empty_world.
Proof.
  apply (logged_out_run_is_inert _ _
           {| user_phone_key := None;
              cart_key := Some (cart Examples.two_item_session) |}
           _ eq_refl).
Defined.

(** X14.  Logging out clears the whole session, phone and cart, makes no
    call to the ledger, and asks for a rerun, also when the same run
    carries a submitted checkout form: the order is not placed.  The next
    run, whatever its widgets, is a logged-out run: it starts with the
    login form and shows nothing of the tabs. *)
Theorem logout_clears_session cfg wd wd' ss w phone :
  unset (SHEET_ID cfg) = false ->
  user_phone_key ss = Some phone -> logout wd = true ->
  main cfg wd ss w
  = {| ending_of := Rerun;
       state_of := {| user_phone_key := None; cart_key := None |};
       world_of := w; page_of := [LoggedInAs phone] |}
  /\ (exists rest,
         page_of (main cfg wd' (state_of (main cfg wd ss w)) w)
         = LoginForm :: rest
         /\ forall u, ~ In (OnTab u) rest)
  /\ cart_key (state_of (main cfg wd' (state_of (main cfg wd ss w)) w))
     = None.
Proof.
  intros Hu Hp Hl. destruct (sheet_id_set cfg Hu) as [table Ht].
  assert (E : main cfg wd ss w
              = {| ending_of := Rerun;
                   state_of := {| user_phone_key := None;
                                  cart_key := None |};
                   world_of := w; page_of := [LoggedInAs phone] |})
    by (unfold main; rewrite Ht, Hu, Hp, Hl; reflexivity).
  rewrite E. cbn [state_of]. split; [reflexivity|].
  unfold main. rewrite Ht, Hu. cbn [user_phone_key cart_key].
  destruct (login_submit wd'); [destruct (falsy (phone_box wd'))|];
    cbn [page_of state_of cart_key]; (split; [|reflexivity]).
  - exists [EnterValidPhone]. split; [reflexivity|].
    intros u [H | []]; discriminate.
  - exists []. split; [reflexivity | intros u []].
  - exists []. split; [reflexivity | intros u []].
Qed.

Lemma logout_clears_session_witness :
  world_of (main {| secrets := Some [(lit "SHEET_ID", Text (lit "1AbC"))];
                    environ := [] |}
              {| phone_box := []; login_submit := false; logout := true;
                 selected_tab := Shop;
                 tab_inputs := Examples.checkout_form "3f2b8c1d" |}
              {| user_phone_key := Some (lit "9876543210");
                 cart_key := Some (cart Examples.two_item_session) |}
              Examples.empty_world)
  = Examples.empty_world.
Proof.
  rewrite (proj1 (logout_clears_session
    {| secrets := Some [(lit "SHEET_ID", Text (lit "1AbC"))]; environ := [] |}
    {| phone_box := []; login_submit := false; logout := true;
       selected_tab := Shop;
       tab_inputs := Examples.checkout_form "3f2b8c1d" |}
    {| phone_box := []; login_submit := false; logout := false;
       selected_tab := Shop;
       tab_inputs := Examples.checkout_form "3f2b8c1d" |}
    {| user_phone_key := Some (lit "9876543210");
       cart_key := Some (cart Examples.two_item_session) |}
    Examples.empty_world (lit "9876543210") eq_refl eq_refl eq_refl)).
  reflexivity.
Defined.

Lemma shop_run_keeps_phone inp s w :
  user_phone (session (snd (run Shop inp s w))) = user_phone s.
Proof.
  rewrite shop_tab_run. unfold shop_outcome. cbn [cart user_phone].
  destruct (cart_after_grid inp rakhi_catalog (cart s)); [reflexivity|].
  destruct (submit inp); [|reflexivity].
  destruct (falsy (name inp) || falsy (address inp) || falsy (pincode inp));
    [reflexivity|].
  destruct (save_orders_to_sheet _ w) as [[u|e] w']; reflexivity.
Qed.

(** X15.  The phone of the session never carries surrounding whitespace:
    every run of the script, whatever its widgets and whatever the API
    does, takes a session whose phone is unchanged by stripping to such a
    session, and a logged-in run that is not a logout keeps the phone it
    has.  So the [strip] the tabs apply to it changes nothing, and the
    Phone written with an order is the phone of the sidebar. *)
Theorem phone_stays_normal cfg wd ss w :
  phone_ok ss ->
  phone_ok (state_of (main cfg wd ss w))
  /\ (forall phone,
         unset (SHEET_ID cfg) = false ->
         user_phone_key ss = Some phone -> logout wd = false ->
         user_phone_key (state_of (main cfg wd ss w)) = Some phone
         /\ strip phone = phone).
Proof.
  intros Hok.
  assert (Keep : forall phone c,
            user_phone
              (session (snd (run (selected_tab wd) (tab_inputs wd)
                               {| user_phone := phone; cart := c |} w)))
            = phone).
  { intros phone c. destruct (selected_tab wd).
    - apply shop_run_keeps_phone.
    - pose proof (quiet_my_orders_tab
                    {| session := {| user_phone := phone; cart := c |};
                       world := w; shown := [] |}) as [H _].
      unfold run, script. rewrite H. reflexivity. }
  split.
  - unfold main. destruct (secrets cfg) as [table|]; [|exact Hok].
    destruct (unset (SHEET_ID cfg)); [exact Hok|].
    destruct (user_phone_key ss) as [phone|] eqn:Hp.
    + destruct (logout wd); [intros p; discriminate|].
      specialize (Keep phone match cart_key ss with
                             | Some c => c
                             | None => []
                             end).
      destruct (run _ _ _ w) as [r st]. cbn [snd] in Keep.
      cbn [state_of]. intros p Hp'. cbn [user_phone_key] in Hp'.
      inversion Hp'; subst p. rewrite Keep. apply (Hok phone Hp).
    + destruct (login_submit wd); [|exact Hok].
      destruct (falsy (phone_box wd)); [exact Hok|].
      intros p Hp'. cbn [state_of user_phone_key] in Hp'.
      inversion Hp'. apply strip_idem.
  - intros phone Hu Hp Hl. split; [|apply Hok; exact Hp].
    destruct (sheet_id_set cfg Hu) as [table Ht].
    unfold main. rewrite Ht, Hu, Hp, Hl.
    specialize (Keep phone match cart_key ss with
                           | Some c => c
                           | None => []
                           end).
    destruct (run _ _ _ w) as [r st]. cbn [snd] in Keep.
    cbn [state_of user_phone_key]. rewrite Keep. reflexivity.
Qed.

Lemma phone_stays_normal_witness :
  phone_ok
    (state_of (main {| secrets := Some [(lit "SHEET_ID", Text (lit "1AbC"))];
                       environ := [] |}
                 {| phone_box := lit " 98765 "; login_submit := true;
                    logout := false; selected_tab := Shop;
                    tab_inputs := Examples.press_add "x" 1 |}
                 {| user_phone_key := None; cart_key := None |}
                 Examples.empty_world)).
Proof.
  apply (phone_stays_normal _ _ {| user_phone_key := None;
                                   cart_key := None |} _).
  intros p H. discriminate.
Defined.

(* ================================================================== *)
(** * Resolving the credentials                                         *)
(* ================================================================== *)

Import Credentials.

(** X16.  Resolution fails for want of a source, with [RuntimeError],
    exactly when there is no credentials table in the secrets, the base64
    secret and the base64 variable are both absent or empty, the JSON
    variable is absent or empty, and the file does not exist.  Any other
    failure is a source that was found and did not decode. *)
Theorem credentials_runtime_error_iff (info : Type)
  (decode_b64_json json_loads : str -> option info) (src : Sources info) :
  _get_service_account_info info decode_b64_json json_loads src
  = inr RuntimeError
  <-> google_credentials src = None
      /\ truthy (secret_b64 src) = false
      /\ truthy (env_b64 src) = false
      /\ truthy (env_json src) = false
      /\ creds_file src = None.
Proof.
  unfold _get_service_account_info.
  destruct src as [t sb eb ej f]. cbn [google_credentials secret_b64 env_b64
    env_json creds_file].
  destruct t as [t|]; [split; [discriminate | intros [H _]; discriminate]|].
  assert (D : forall o : option info, decoded o <> inr RuntimeError)
    by (intros [i|]; discriminate).
  destruct sb as [[|c s]|]; cbn [truthy];
    try (split; [intros H; exfalso; apply (D _ H)
                | intros (_ & H & _); discriminate]);
    (destruct eb as [[|c' s']|]; cbn [truthy];
     try (split; [intros H; exfalso; apply (D _ H)
                 | intros (_ & _ & H & _); discriminate]);
     (destruct ej as [[|c'' s'']|]; cbn [truthy];
      try (split; [intros H; exfalso; apply (D _ H)
                  | intros (_ & _ & _ & H & _); discriminate]);
      (destruct f as [text|];
       [split; [intros H; exfalso; apply (D _ H)
               | intros (_ & _ & _ & _ & H); discriminate]
       | split; [intros _; repeat split | reflexivity]]))).
Qed.

Lemma credentials_runtime_error_iff_witness :
  _get_service_account_info nat (fun _ => Some 1%nat) (fun _ => Some 2%nat)
    {| google_credentials := None; secret_b64 := Some [];
       env_b64 := None; env_json := Some []; creds_file := None |}
  = inr RuntimeError.
Proof.
  apply (proj2 (credentials_runtime_error_iff nat
                  (fun _ => Some 1%nat) (fun _ => Some 2%nat) _)).
  repeat split.
Defined.

(** X17.  The first source that is there is the only one tried.  A
    credentials table in the secrets is returned whatever else is set.
    Without it, a non-empty base64 secret is decoded, and when it does not
    decode the resolution fails even though the JSON variable or the file
    would have given credentials; an absent or empty base64 secret defers
    to the variable of the same name. *)
Theorem credentials_first_source_wins (info : Type)
  (decode_b64_json json_loads : str -> option info) (src : Sources info) :
  (forall t, google_credentials src = Some t ->
             _get_service_account_info info decode_b64_json json_loads src
             = inl t)
  /\ (forall b, google_credentials src = None ->
                secret_b64 src = Some b -> b <> [] ->
                _get_service_account_info info decode_b64_json json_loads src
                = decoded (decode_b64_json b))
  /\ (forall b, google_credentials src = None ->
                truthy (secret_b64 src) = false ->
                env_b64 src = Some b -> b <> [] ->
                _get_service_account_info info decode_b64_json json_loads src
                = decoded (decode_b64_json b)).
Proof.
  unfold _get_service_account_info. split; [|split].
  - intros t ->. reflexivity.
  - intros b -> -> Hb. destruct b as [|c s]; [contradiction|]. reflexivity.
  - intros b -> Hs -> Hb. rewrite Hs.
    destruct b as [|c s]; [contradiction|]. reflexivity.
Qed.

Lemma credentials_first_source_wins_witness :
  _get_service_account_info nat (fun _ => None) (fun _ => Some 2%nat)
    {| google_credentials := None; secret_b64 := Some (lit "not base64");
       env_b64 := None; env_json := Some (lit "{}");
       creds_file := Some (lit "{}") |}
  = inr DecodeError.
Proof.
  apply (proj1 (proj2 (credentials_first_source_wins nat
    (fun _ => None) (fun _ => Some 2%nat)
    {| google_credentials := None; secret_b64 := Some (lit "not base64");
       env_b64 := None; env_json := Some (lit "{}");
       creds_file := Some (lit "{}") |})) (lit "not base64") eq_refl eq_refl).
  vm_compute. discriminate.
Defined.

(* ================================================================== *)
(** * The order of the catalog                                          *)
(* ================================================================== *)

Section Sorted.
Context {A : Type} (key : A -> Z).

Lemma insert_sorted_perm x l : Permutation (x :: l) (insert_sorted key x l).
Proof.
  induction l as [|y t IH]; cbn; [apply Permutation_refl|].
  destruct (key x <=? key y); [apply Permutation_refl|].
  eapply Permutation_trans; [apply perm_swap|].
  apply perm_skip. exact IH.
Qed.

Lemma insert_sorted_sorted x l :
  StronglySorted (fun a b => key a <= key b) l ->
  StronglySorted (fun a b => key a <= key b) (insert_sorted key x l).
Proof.
  induction 1 as [|y t Hs IH Hy]; cbn; [repeat constructor|].
  destruct (key x <=? key y) eqn:E.
  - apply Z.leb_le in E. constructor; [constructor; assumption|].
    constructor; [exact E|].
    eapply Forall_impl; [|exact Hy]. cbn. intros a Ha. lia.
  - apply Z.leb_gt in E. constructor; [exact IH|].
    apply Forall_forall. intros a Ha.
    apply (Permutation_in _ (Permutation_sym (insert_sorted_perm x t))) in Ha.
    destruct Ha as [<- | Ha]; [lia|].
    rewrite Forall_forall in Hy. apply Hy; exact Ha.
Qed.

(** Insertion keeps the entries of any one key in the order they had, the
    new entry first among them. *)
Lemma insert_sorted_stable x l z :
  StronglySorted (fun a b => key a <= key b) l ->
  filter (fun a => key a =? z) (insert_sorted key x l)
  = filter (fun a => key a =? z) (x :: l).
Proof.
  induction 1 as [|y t Hs IH Hy]; [reflexivity|].
  cbn [insert_sorted]. destruct (key x <=? key y) eqn:E; [reflexivity|].
  apply Z.leb_gt in E. cbn [filter] in *. rewrite IH.
  destruct (key x =? z) eqn:Ex; [|reflexivity].
  destruct (key y =? z) eqn:Ey; [|reflexivity].
  apply Z.eqb_eq in Ex, Ey. lia.
Qed.

Lemma sorted_spec (l : list A) :
  Permutation l (sorted key l)
  /\ StronglySorted (fun a b => key a <= key b) (sorted key l)
  /\ forall z, filter (fun a => key a =? z) (sorted key l)
               = filter (fun a => key a =? z) l.
Proof.
  induction l as [|x l (IH1 & IH2 & IH3)]; cbn.
  - repeat split; constructor.
  - fold (sorted key l). split; [|split].
    + eapply Permutation_trans; [apply perm_skip; exact IH1|].
      apply insert_sorted_perm.
    + apply insert_sorted_sorted; exact IH2.
    + intros z. rewrite (insert_sorted_stable x _ z IH2).
      cbn [filter]. rewrite IH3. reflexivity.
Qed.
End Sorted.

(** X18.  The listing built from a catalog literal whose keys are distinct
    holds the entries of the literal, each once; it runs by non-increasing
    discount; and products with the same discount stay in the order the
    literal gives them. *)
Theorem catalog_listing (literal : list (str * product)) :
  NoDup (List.map fst literal) ->
  Permutation literal
    (dict_of_list (sorted (fun x => - discount (snd x))
                     (dict_of_list literal)))
  /\ StronglySorted (fun a b => discount (snd b) <= discount (snd a))
       (dict_of_list (sorted (fun x => - discount (snd x))
                        (dict_of_list literal)))
  /\ (forall d,
         filter (fun x => discount (snd x) =? d)
           (dict_of_list (sorted (fun x => - discount (snd x))
                            (dict_of_list literal)))
         = filter (fun x => discount (snd x) =? d) literal).
Proof.
  intros Hnd. rewrite (dict_of_list_nodup literal Hnd).
  destruct (sorted_spec (fun x : str * product => - discount (snd x))
              literal) as (P & S & F).
  rewrite dict_of_list_nodup.
  2:{ apply (Permutation_NoDup (l := List.map fst literal));
        [apply Permutation_map; exact P | exact Hnd]. }
  split; [exact P|]. split.
  - eapply StronglySorted_ind with
      (P := fun l => StronglySorted
                       (fun a b => discount (snd b) <= discount (snd a)) l);
      [constructor | | exact S].
    intros a l _ IH Ha. constructor; [exact IH|].
    eapply Forall_impl; [|exact Ha]. cbn. intros b Hb. lia.
  - intros d. specialize (F (- d)).
    rewrite (filter_ext (fun x => discount (snd x) =? d)
               (fun x => - discount (snd x) =? - d)).
    + rewrite F. apply filter_ext. intros x.
      destruct (Z.eqb_spec (- discount (snd x)) (- d));
        destruct (Z.eqb_spec (discount (snd x)) d); (reflexivity || lia).
    + intros x.
      destruct (Z.eqb_spec (- discount (snd x)) (- d));
        destruct (Z.eqb_spec (discount (snd x)) d); (reflexivity || lia).
Qed.

Lemma catalog_listing_witness :
  Permutation catalog_literal rakhi_catalog.
Proof.
  apply (catalog_listing catalog_literal).
  assert (H : List.map fst catalog_literal
              = nodup (list_eq_dec N.eq_dec) (List.map fst catalog_literal))
    by (vm_compute; reflexivity).
  rewrite H. apply NoDup_nodup.
Defined.

(* ================================================================== *)
(** * Opening the worksheet                                             *)
(* ================================================================== *)

(** X19.  Opening a worksheet by name creates it, empty, only when it is
    missing: afterwards the spreadsheet has a worksheet of that name, one
    that was there keeps its rows, every other worksheet is untouched, and
    opening it again changes nothing and gives the same rows. *)
Theorem get_worksheet_creates_once (sh : Workbook.Spreadsheet)
  (sheet_name : str) :
  Workbook.worksheet (snd (Workbook._get_worksheet sh sheet_name)) sheet_name
  = Some (fst (Workbook._get_worksheet sh sheet_name))
  /\ (forall ws, Workbook.worksheet sh sheet_name = Some ws ->
                 Workbook._get_worksheet sh sheet_name = (ws, sh))
  /\ (forall other, other <> sheet_name ->
                    Workbook.worksheet
                      (snd (Workbook._get_worksheet sh sheet_name)) other
                    = Workbook.worksheet sh other)
  /\ Workbook._get_worksheet (snd (Workbook._get_worksheet sh sheet_name))
       sheet_name
     = (fst (Workbook._get_worksheet sh sheet_name),
        snd (Workbook._get_worksheet sh sheet_name)).
Proof.
  unfold Workbook._get_worksheet, Workbook.worksheet, Workbook.add_worksheet.
  destruct (dict_get sheet_name sh) as [ws|] eqn:E; cbn [fst snd].
  - split; [exact E|]. split; [intros ws' H; inversion H; reflexivity|].
    split; [reflexivity|]. rewrite E. reflexivity.
  - split; [apply dict_get_set_same|]. split; [discriminate|].
    split; [intros other Ho; apply dict_get_set_other; exact Ho|].
    rewrite dict_get_set_same. reflexivity.
Qed.

Lemma get_worksheet_creates_once_witness :
  Workbook.worksheet
    (snd (Workbook._get_worksheet
            [(lit "Stock", [[VStr (lit "Item")]])] (lit "Orders")))
    (lit "Stock")
  = Workbook.worksheet [(lit "Stock", [[VStr (lit "Item")]])] (lit "Stock").
Proof.
  apply (proj1 (proj2 (proj2 (get_worksheet_creates_once
           [(lit "Stock", [[VStr (lit "Item")]])] (lit "Orders"))))).
  vm_compute. discriminate.
Defined.

(* ================================================================== *)
(** * From checkout to My Orders                                        *)
(* ================================================================== *)






